(** * Banshie trading bot: indicator engine, signal synthesis, DCA scheduler
      and position ledger.

    Shallow embedding of the Convex backend functions
      - actions/analytics  (calculateTechnicalIndicators,
                            calculateTokenIndicators, calculateSMA, ...,
                            generateTradingSignals),
      - actions/dca        (executeScheduledStrategies, processValueAveraging,
                            weekendBoost, checkStrategyConditions, ...),
      - mutations/trading  (placeTrade, updatePosition, handleCompletedOrder),
      - queries/portfolio  (getPosition) and queries/prices (getPriceHistory),
    over IEEE 754 binary64 numbers and the tables of the schema, together
    with the properties stated about them. *)

From Stdlib Require Import ZArith QArith List Bool String Lia.
From Stdlib Require Import Floats.SpecFloat.
Import ListNotations.

Local Open Scope Z_scope.

(* ================================================================== *)
(** ** JavaScript values used by the backend *)
(* ================================================================== *)

Module JS.

(** A JavaScript [number] is an IEEE 754 binary64 value: 53 bits of
    precision, exponents up to 1024, the two zeros, the two infinities and
    NaN.  Every operation rounds to nearest, ties to even, as the language
    prescribes; the model is the executable specification of binary
    floating-point arithmetic of the Standard Library. *)
Definition number : Type := spec_float.

Definition prec : Z := 53.
Definition emax : Z := 1024.

Definition NaN : number := S754_nan.
Definition PosInf : number := S754_infinity false.
Definition NegInf : number := S754_infinity true.

(** The number an integer literal, or an integer such as a length or a
    clock reading, stands for. *)
Definition num (z : Z) : number := binary_normalize prec emax z 0 false.

Definition neg (a : number) : number := SFopp a.
Definition add (a b : number) : number := SFadd prec emax a b.
Definition sub (a b : number) : number := SFsub prec emax a b.
Definition mul (a b : number) : number := SFmul prec emax a b.
Definition div (a b : number) : number := SFdiv prec emax a b.

(** A decimal literal [m / scale] with [scale] a power of ten, such as
    [0.8 = dec 8 10]: the binary64 value nearest to the quotient. *)
Definition dec (m scale : Z) : number := div (num m) (num scale).

(** [a < b], [a > b], [a <= b], [a >= b] and [a === b]; every comparison
    with NaN is false and the two zeros are equal. *)
Definition lt (a b : number) : bool := SFltb a b.
Definition gt (a b : number) : bool := lt b a.
Definition le (a b : number) : bool := SFleb a b.
Definition ge (a b : number) : bool := le b a.
Definition strict_eq (a b : number) : bool := SFeqb a b.

(** ToBoolean on a number: the zeros and NaN are falsy. *)
Definition truthy (a : number) : bool :=
  match a with
  | S754_zero _ | S754_nan => false
  | _ => true
  end.

(** ToBoolean on [number | null]. *)
Definition truthy_opt (a : option number) : bool :=
  match a with
  | Some x => truthy x
  | None => false
  end.

(** [a || d] on [number | null | undefined]. *)
Definition or_default (a : option number) (d : number) : number :=
  match a with
  | Some x => if truthy x then x else d
  | None => d
  end.

Definition abs (a : number) : number := SFabs a.

(** [Math.max] and [Math.min] of two arguments: NaN if either is NaN, and
    +0 counts as greater than -0. *)
Definition max2 (a b : number) : number :=
  match a, b with
  | S754_nan, _ | _, S754_nan => NaN
  | S754_zero sa, S754_zero sb => S754_zero (sa && sb)
  | _, _ => if lt a b then b else a
  end.

Definition min2 (a b : number) : number :=
  match a, b with
  | S754_nan, _ | _, S754_nan => NaN
  | S754_zero sa, S754_zero sb => S754_zero (sa || sb)
  | _, _ => if lt b a then b else a
  end.

(** [Math.max(...xs)] and [Math.min(...xs)]; on no argument they are
    [-Infinity] and [Infinity]. *)
Definition max_of (xs : list number) : number := fold_left max2 xs NegInf.
Definition min_of (xs : list number) : number := fold_left min2 xs PosInf.

(** [Math.pow(a, 2)], taken as the correctly rounded square. *)
Definition square (a : number) : number := mul a a.

(** [xs.reduce((a, b) => a + b, 0)]. *)
Definition sum (xs : list number) : number := fold_left add xs (num 0).

(** The number that [parseFloat] reads back from [a.toString()]: [a]
    itself, except that [-0] is written as ["0"]. *)
Definition reread (a : number) : number :=
  match a with
  | S754_zero _ => S754_zero false
  | _ => a
  end.

(** The exact value of a finite number. *)
Definition value (a : number) : option Q :=
  match a with
  | S754_zero _ => Some 0%Q
  | S754_finite s m e =>
      Some (inject_Z (cond_Zopp s (Z.pos m)) * Qpower 2 e)%Q
  | _ => None
  end.

(** *** Arrays *)

Definition len {A} (xs : list A) : Z := Z.of_nat (List.length xs).

(** Relative index of [slice]: a negative index counts from the end. *)
Definition rel_index (n i : Z) : Z :=
  if i <? 0 then Z.max (n + i) 0 else Z.min i n.

(** [xs.slice(start, stop)]. *)
Definition slice {A} (xs : list A) (start stop : Z) : list A :=
  let k := rel_index (len xs) start in
  let e := rel_index (len xs) stop in
  firstn (Z.to_nat (e - k)) (skipn (Z.to_nat k) xs).

(** [xs.slice(start)]. *)
Definition slice_from {A} (xs : list A) (start : Z) : list A :=
  skipn (Z.to_nat (rel_index (len xs) start)) xs.

(** [xs[i]] in a numeric context: a missing element is [undefined], which
    arithmetic and comparisons read as [NaN]. *)
Definition idx (xs : list number) (i : Z) : number :=
  if i <? 0 then NaN else nth (Z.to_nat i) xs NaN.

(** [xs.slice(-1)[0]]. *)
Definition last_of (xs : list number) : number := idx (slice_from xs (-1)) 0.

(** The values taken by [i] in [for (let i = a; i < b; i++)]. *)
Definition range (a b : Z) : list Z :=
  map (fun k => a + Z.of_nat k) (seq 0 (Z.to_nat (b - a))).

End JS.

Import JS.

(* ================================================================== *)
(** ** actions/analytics: the indicator engine *)
(* ================================================================== *)

Module Indicators.

(** One row of [priceHistory.data]; each field is the [parseFloat] of the
    stored string. *)
Record PricePoint : Type := {
  close : number;
  volume : number;
  high : number;
  low : number
}.

Record MACD : Type := {
  macd : number;
  signal : number;
  histogram : number
}.

Record Stochastic : Type := { k : number; d : number }.

Record Bollinger : Type := {
  upper : number;
  middle : number;
  lower : number;
  bandwidth : number
}.

Record PivotPoints : Type := {
  pivot : number;
  resistance1 : number;
  resistance2 : number;
  resistance3 : number;
  support1 : number;
  support2 : number;
  support3 : number
}.

Inductive Overall : Type := bullish | bearish | neutral.

Record SignalEntry : Type := {
  entry_type : string;
  entry_signal : string;
  entry_strength : string
}.

Record Signals : Type := {
  overall : Overall;
  strength : Z;
  signals : list SignalEntry
}.

(** Simple Moving Average. *)
Definition calculateSMA (prices : list number) (period : Z) : option number :=
  if len prices <? period then None
  else
    let slice := slice_from prices (- period) in
    let sum := JS.sum slice in
    Some (div sum (num period)).

(** Exponential Moving Average. *)
Definition calculateEMA (prices : list number) (period : Z) : option number :=
  if len prices <? period then None
  else
    let multiplier := div (num 2) (add (num period) (num 1)) in
    Some (fold_left
            (fun ema i =>
               add (mul (idx prices i) multiplier)
                   (mul ema (sub (num 1) multiplier)))
            (range 1 (len prices))
            (idx prices 0)).

(** MACD; the signal line is the 9-period EMA of the MACD line recomputed
    on every prefix of at least 26 prices. *)
Definition calculateMACD (prices : list number) : option MACD :=
  match calculateEMA prices 12, calculateEMA prices 26 with
  | Some ema12, Some ema26 =>
      if negb (truthy ema12) || negb (truthy ema26) then None
      else
        let macdLine := sub ema12 ema26 in
        let macdHistory :=
          flat_map
            (fun i =>
               let slice := slice prices 0 i in
               match calculateEMA slice 12, calculateEMA slice 26 with
               | Some ema12_slice, Some ema26_slice =>
                   if truthy ema12_slice && truthy ema26_slice
                   then [sub ema12_slice ema26_slice] else []
               | _, _ => []
               end)
            (range 26 (len prices + 1)) in
        let signalLine := or_default (calculateEMA macdHistory 9) (num 0) in
        Some {| macd := macdLine;
                signal := signalLine;
                histogram := sub macdLine signalLine |}
  | _, _ => None
  end.

(** The array [changes] of [calculateRSI]. *)
Definition price_changes (prices : list number) : list number :=
  map (fun i => sub (idx prices i) (idx prices (i - 1)))
      (range 1 (len prices)).

(** RSI (Relative Strength Index). *)
Definition calculateRSI (prices : list number) (period : Z) : option number :=
  if len prices <? period + 1 then None
  else
    let changes := price_changes prices in
    let gains := map (fun c => if gt c (num 0) then c else num 0) changes in
    let losses := map (fun c => if lt c (num 0) then abs c else num 0) changes in
    let avgGain := div (JS.sum (slice_from gains (- period))) (num period) in
    let avgLoss := div (JS.sum (slice_from losses (- period))) (num period) in
    if strict_eq avgLoss (num 0) then Some (num 100)
    else
      let rs := div avgGain avgLoss in
      Some (sub (num 100) (div (num 100) (add (num 1) rs))).

(** Stochastic Oscillator. *)
Definition calculateStochastic (highs lows closes : list number) (period : Z)
  : option Stochastic :=
  if len highs <? period then None
  else
    let highestHigh := max_of (slice_from highs (- period)) in
    let lowestLow := min_of (slice_from lows (- period)) in
    let currentClose := last_of closes in
    let k := mul (div (sub currentClose lowestLow)
                      (sub highestHigh lowestLow)) (num 100) in
    let kValues :=
      map (fun i =>
             let periodHigh := max_of (slice highs (i - period + 1) (i + 1)) in
             let periodLow := min_of (slice lows (i - period + 1) (i + 1)) in
             mul (div (sub (idx closes i) periodLow)
                      (sub periodHigh periodLow)) (num 100))
          (range (period - 1) (len highs)) in
    let d := div (JS.sum (slice_from kValues (-3))) (num 3) in
    Some {| k := k; d := d |}.

(** Williams %R. *)
Definition calculateWilliamsR (highs lows closes : list number) (period : Z)
  : option number :=
  if len highs <? period then None
  else
    let highestHigh := max_of (slice_from highs (- period)) in
    let lowestLow := min_of (slice_from lows (- period)) in
    let currentClose := last_of closes in
    Some (mul (div (sub highestHigh currentClose)
                   (sub highestHigh lowestLow)) (num (-100))).

(** Average True Range. *)
Definition calculateATR (highs lows closes : list number) (period : Z)
  : option number :=
  if len highs <? period + 1 then None
  else
    let trueRanges :=
      map (fun i =>
             let tr1 := sub (idx highs i) (idx lows i) in
             let tr2 := abs (sub (idx highs i) (idx closes (i - 1))) in
             let tr3 := abs (sub (idx lows i) (idx closes (i - 1))) in
             max_of [tr1; tr2; tr3])
          (range 1 (len highs)) in
    calculateSMA trueRanges period.

(** On-Balance Volume. *)
Definition calculateOBV (prices volumes : list number) : number :=
  fold_left
    (fun obv i =>
       if gt (idx prices i) (idx prices (i - 1)) then add obv (idx volumes i)
       else if lt (idx prices i) (idx prices (i - 1))
            then sub obv (idx volumes i)
            else obv)
    (range 1 (len prices))
    (num 0).

(** Pivot Points. *)
Definition calculatePivotPoints (high low close : number) : PivotPoints :=
  let pivot := div (add (add high low) close) (num 3) in
  {| pivot := pivot;
     resistance1 := sub (mul (num 2) pivot) low;
     resistance2 := add pivot (sub high low);
     resistance3 := add high (mul (num 2) (sub pivot low));
     support1 := sub (mul (num 2) pivot) high;
     support2 := sub pivot (sub high low);
     support3 := sub low (mul (num 2) (sub high pivot)) |}.

Definition calculateTrendStrength (prices : list number) : number :=
  if len prices <? 20 then num 0
  else
    let sma20 := or_default (calculateSMA prices 20) (num 0) in
    let sma50 := or_default (calculateSMA prices 50) (num 0) in
    let currentPrice := last_of prices in
    let score := num 0 in
    let score := if gt currentPrice sma20 then add score (num 25) else score in
    let score := if gt currentPrice sma50 then add score (num 25) else score in
    let score := if gt sma20 sma50 then add score (num 25) else score in
    let recentSlope :=
      div (sub (last_of prices) (idx (slice_from prices (-10)) 0)) (num 10) in
    let score := if gt recentSlope (num 0) then add score (num 25) else score in
    score.

Section WithSqrt.

(** [Math.sqrt], provided by the JavaScript runtime. *)
Variable sqrt : number -> number.

(** Bollinger Bands. *)
Definition calculateBollingerBands (prices : list number) (period : Z)
  (stdDev : number) : option Bollinger :=
  if len prices <? period then None
  else
    match calculateSMA prices period with
    | Some sma =>
        if negb (truthy sma) then None
        else
          let slice := slice_from prices (- period) in
          let variance :=
            div (fold_left (fun acc price => add acc (square (sub price sma)))
                           slice (num 0))
                (num period) in
          let standardDeviation := sqrt variance in
          Some {| upper := add sma (mul standardDeviation stdDev);
                  middle := sma;
                  lower := sub sma (mul standardDeviation stdDev);
                  bandwidth :=
                    div (sub (add sma (mul standardDeviation stdDev))
                             (sub sma (mul standardDeviation stdDev))) sma |}
    | None => None
    end.

Definition calculateVolatilityScore (prices : list number) : number :=
  if len prices <? 20 then num 0
  else
    let returns :=
      map (fun i => div (sub (idx prices i) (idx prices (i - 1)))
                        (idx prices (i - 1)))
          (range 1 (len prices)) in
    let mean := div (JS.sum returns) (num (len returns)) in
    let variance :=
      div (fold_left (fun acc ret => add acc (square (sub ret mean)))
                     returns (num 0))
          (num (len returns)) in
    let volatility := mul (sqrt variance) (sqrt (num 252)) in
    min2 (num 100) (mul volatility (num 100)).

End WithSqrt.

Definition calculateMomentumScore (prices : list number) : number :=
  if len prices <? 10 then num 50
  else
    let rsi := or_default (calculateRSI prices 14) (num 50) in
    let first := idx (slice_from prices (-10)) 0 in
    let priceChange := mul (div (sub (last_of prices) first) first) (num 100) in
    let momentumScore :=
      div (add (add rsi
                    (max2 (num (-50)) (min2 (num 50) (mul priceChange (num 2)))))
               (num 50))
          (num 2) in
    max2 (num 0) (min2 (num 100) momentumScore).

(** *** Signal synthesis *)

(** The counters and the list that [generateTradingSignals] updates. *)
Record Votes : Type := {
  bullishSignals : Z;
  bearishSignals : Z;
  entries : list SignalEntry
}.

Definition no_votes : Votes :=
  {| bullishSignals := 0; bearishSignals := 0; entries := [] |}.

(** [signals.signals.push(e); bullishSignals += w]. *)
Definition push_bullish (e : SignalEntry) (w : Z) (v : Votes) : Votes :=
  {| bullishSignals := bullishSignals v + w;
     bearishSignals := bearishSignals v;
     entries := entries v ++ [e] |}.

(** [signals.signals.push(e); bearishSignals += w]. *)
Definition push_bearish (e : SignalEntry) (w : Z) (v : Votes) : Votes :=
  {| bullishSignals := bullishSignals v;
     bearishSignals := bearishSignals v + w;
     entries := entries v ++ [e] |}.

Definition entry (t s g : string) : SignalEntry :=
  {| entry_type := t; entry_signal := s; entry_strength := g |}.

(** RSI Signals. *)
Definition rsiSignals (rsi : option number) (v : Votes) : Votes :=
  match rsi with
  | Some rsi =>
      if truthy rsi then
        if lt rsi (num 30)
        then push_bullish (entry "RSI" "oversold" "strong") 2 v
        else if gt rsi (num 70)
             then push_bearish (entry "RSI" "overbought" "strong") 2 v
             else v
      else v
  | None => v
  end.

(** MACD Signals. *)
Definition macdSignals (m : option MACD) (v : Votes) : Votes :=
  match m with
  | Some m =>
      if gt (macd m) (signal m) && gt (histogram m) (num 0)
      then push_bullish (entry "MACD" "bullish_crossover" "medium") 1 v
      else if lt (macd m) (signal m) && lt (histogram m) (num 0)
           then push_bearish (entry "MACD" "bearish_crossover" "medium") 1 v
           else v
  | None => v
  end.

(** Moving Average Signals. *)
Definition maSignals (sma20 sma50 : option number) (currentPrice : number)
  (v : Votes) : Votes :=
  match sma20, sma50 with
  | Some sma20, Some sma50 =>
      if truthy sma20 && truthy sma50 then
        if gt currentPrice sma20 && gt sma20 sma50
        then push_bullish (entry "MA" "uptrend" "medium") 1 v
        else if lt currentPrice sma20 && lt sma20 sma50
             then push_bearish (entry "MA" "downtrend" "medium") 1 v
             else v
      else v
  | _, _ => v
  end.

(** Bollinger Bands Signals. *)
Definition bbSignals (bb : option Bollinger) (currentPrice : number)
  (v : Votes) : Votes :=
  match bb with
  | Some bb =>
      if lt currentPrice (lower bb)
      then push_bullish (entry "BB" "oversold" "medium") 1 v
      else if gt currentPrice (upper bb)
           then push_bearish (entry "BB" "overbought" "medium") 1 v
           else v
  | None => v
  end.

(** Determine overall signal. *)
Definition overallSignal (v : Votes) : Signals :=
  let netSignal := bullishSignals v - bearishSignals v in
  if netSignal >? 1 then
    {| overall := bullish;
       strength := Z.min 100 (netSignal * 20);
       signals := entries v |}
  else if netSignal <? -1 then
    {| overall := bearish;
       strength := Z.min 100 (Z.abs netSignal * 20);
       signals := entries v |}
  else
    {| overall := neutral; strength := 0; signals := entries v |}.

(** The body of [generateTradingSignals] once the five indicators and the
    current price are at hand. *)
Definition synthesize (rsi : option number) (m : option MACD)
  (bb : option Bollinger) (sma20 sma50 : option number)
  (currentPrice : number) : Signals :=
  overallSignal
    (bbSignals bb currentPrice
       (maSignals sma20 sma50 currentPrice
          (macdSignals m
             (rsiSignals rsi no_votes)))).

Record SMASet : Type := { sma20 : option number; sma50 : option number;
                          sma200 : option number }.
Record EMASet : Type := { ema12 : option number; ema26 : option number;
                          ema50 : option number }.

Record IndicatorSet : Type := {
  sma : SMASet;
  ema : EMASet;
  ind_macd : option MACD;
  rsi : option number;
  stochastic : option Stochastic;
  williams : option number;
  bollingerBands : option Bollinger;
  atr : option number;
  volumeSMA : option number;
  obv : number;
  pivotPoints : PivotPoints;
  trendStrength : number;
  volatilityScore : number;
  momentumScore : number;
  ind_signals : Signals
}.

Section Engine.

Variable sqrt : number -> number.

(** Generate trading signals based on technical indicators. *)
Definition generateTradingSignals (prices highs lows volumes : list number)
  : Signals :=
  let rsi := calculateRSI prices 14 in
  let macd := calculateMACD prices in
  let bb := calculateBollingerBands sqrt prices 20 (num 2) in
  let sma20 := calculateSMA prices 20 in
  let sma50 := calculateSMA prices 50 in
  let currentPrice := last_of prices in
  synthesize rsi macd bb sma20 sma50 currentPrice.

(** Main function to calculate all technical indicators.  [priceData] comes
    newest first; the four arrays are reversed to oldest first. *)
Definition calculateAllIndicators (priceData : list PricePoint) : IndicatorSet :=
  let prices := rev (map close priceData) in
  let volumes := rev (map volume priceData) in
  let highs := rev (map high priceData) in
  let lows := rev (map low priceData) in
  {| sma := {| sma20 := calculateSMA prices 20;
               sma50 := calculateSMA prices 50;
               sma200 := calculateSMA prices 200 |};
     ema := {| ema12 := calculateEMA prices 12;
               ema26 := calculateEMA prices 26;
               ema50 := calculateEMA prices 50 |};
     ind_macd := calculateMACD prices;
     rsi := calculateRSI prices 14;
     stochastic := calculateStochastic highs lows prices 14;
     williams := calculateWilliamsR highs lows prices 14;
     bollingerBands := calculateBollingerBands sqrt prices 20 (num 2);
     atr := calculateATR highs lows prices 14;
     volumeSMA := calculateSMA volumes 20;
     obv := calculateOBV prices volumes;
     pivotPoints :=
       calculatePivotPoints (last_of highs) (last_of lows) (last_of prices);
     trendStrength := calculateTrendStrength prices;
     volatilityScore := calculateVolatilityScore sqrt prices;
     momentumScore := calculateMomentumScore prices;
     ind_signals := generateTradingSignals prices highs lows volumes |}.

End Engine.

End Indicators.

(* ================================================================== *)
(** ** The database *)
(* ================================================================== *)

Module Store.

Definition Id : Type := nat.

(** What a handler throws. *)
Inductive Error : Type :=
| UserNotFoundOrInactive
| InvalidWallet
| DailyTradeLimitReached (limit : Z)
| MaximumOpenPositionsReached (limit : Z)
| InvalidPositionUpdate
| ConcurrencyConflict
| SchemaValidationError (table field : string)
| ArgumentValidationError (function : string)
| TypeError (message : string)
| OtherError (message : string).

Inductive Result (A : Type) : Type :=
| Ok (a : A)
| Throw (e : Error).
Arguments Ok {A} a.
Arguments Throw {A} e.

(** The values a caller hands to a query or mutation, and the object that
    holds them under their field names. *)
Inductive Value : Type :=
| V_id (id : Id)
| V_string (s : string)
| V_boolean (b : bool)
| V_number (n : number).

Definition Object : Type := list (string * Value).

Definition field (name : string) (o : Object) : option Value :=
  option_map snd (find (fun kv => String.eqb (fst kv) name) o).

Inductive Validator : Type := v_id | v_string | v_boolean | v_number.

Definition conforms (v : Validator) (x : Value) : bool :=
  match v, x with
  | v_id, V_id _ | v_string, V_string _
  | v_boolean, V_boolean _ | v_number, V_number _ => true
  | _, _ => false
  end.

(** The check of [args] against the validator of a function: every
    required field is there and conforms, every optional field that is there
    conforms, and no other field is there. *)
Definition validate (required optional : list (string * Validator))
  (args : Object) : bool :=
  forallb (fun rv => match field (fst rv) args with
                     | Some x => conforms (snd rv) x
                     | None => false
                     end) required
  && forallb (fun ov => match field (fst ov) args with
                        | Some x => conforms (snd ov) x
                        | None => true
                        end) optional
  && forallb (fun kv => existsb (String.eqb (fst kv))
                                (map fst (required ++ optional))) args.

Record User : Type := {
  user_id : Id;
  user_isActive : bool;
  user_dailyTrades : Z;
  user_maxOpenPositions : Z;
  user_lastActive : Z
}.

Record Wallet : Type := {
  wallet_id : Id;
  wallet_userId : Id
}.

Inductive OrderType : Type := market | limit | stop_loss | take_profit.
Inductive Side : Type := buy | sell.
Inductive OrderStatus : Type :=
| pending | submitted | executing | partial | completed | failed | cancelled.

(** [amount] strings are kept as the number [parseFloat] reads from them. *)
Record TokenIn : Type := {
  in_mint : string;
  in_symbol : string;
  in_amount : number;
  in_decimals : Z
}.

Record TokenOut : Type := {
  out_mint : string;
  out_symbol : string;
  out_decimals : Z
}.

Record Order : Type := {
  order_id : Id;
  order_userId : Id;
  order_walletId : Id;
  order_type : OrderType;
  order_side : Side;
  order_status : OrderStatus;
  order_tokenIn : TokenIn;
  order_tokenOut : TokenOut;
  order_tokenOut_amount : number;
  order_expectedPrice : number;
  order_slippage : number;
  order_metadata : option string;
  order_createdAt : Z;
  order_updatedAt : Z
}.

(** The schema of the table [orders] as far as a document can fall short of
    it here: [metadata: v.any()] is a required field. *)
Definition orders_schema (o : Order) : Result unit :=
  match order_metadata o with
  | Some _ => Ok tt
  | None => Throw (SchemaValidationError "orders" "metadata")
  end.

Record Pnl : Type := {
  pnl_amount : number;
  pnl_percentage : number;
  pnl_isProfit : bool
}.

Record Position : Type := {
  pos_id : Id;
  pos_userId : Id;
  pos_walletId : Id;
  pos_tokenMint : string;
  pos_symbol : string;
  pos_name : string;
  pos_amount : number;
  pos_averagePrice : number;
  pos_currentPrice : number;
  pos_marketValue : number;
  pos_costBasis : number;
  pos_pnl : Pnl;
  pos_openedAt : Z;
  pos_lastUpdated : Z
}.

Inductive FrequencyType : Type :=
| interval | cron | dynamic | other_frequency.

Record Frequency : Type := {
  freq_type : FrequencyType;
  freq_value : string
}.

(** [minPrice] and [maxPrice] are [None] when the field is absent or the
    empty string (both falsy) and otherwise hold what [parseFloat] reads. *)
Record Conditions : Type := {
  minPrice : option number;
  maxPrice : option number;
  onlyBuyDips : bool;
  dipThreshold : option number
}.

(** [conditions.volatilityAdjustment]: the schema's [conditions] object has
    no field of that name, so a stored strategy answers [undefined]. *)
Definition volatilityAdjustment (c : Conditions) : option bool := None.

(** [maxInvestment] as [minPrice]; [maxExecutions] and [endDate] are
    numbers or absent. *)
Record Limits : Type := {
  maxInvestment : option number;
  maxExecutions : option number;
  endDate : option number
}.

Record Advanced : Type := {
  valueAveraging : bool;
  rebalancing : bool;
  compounding : bool
}.


(** ToBoolean on [boolean | undefined]. *)
Definition flag_set (f : option bool) : bool :=
  match f with
  | Some b => b
  | None => false
  end.

Record Config : Type := {
  cfg_tokenIn_mint : string;
  cfg_tokenIn_symbol : string;
  cfg_tokenOut_mint : string;
  cfg_tokenOut_symbol : string;
  cfg_amount : number;
  cfg_frequency : Frequency;
  cfg_conditions : option Conditions;
  cfg_limits : Limits;
  cfg_advanced : Advanced
}.

Record Stats : Type := {
  totalExecutions : number;
  totalInvested : number;
  totalReceived : number;
  lastExecution : option number;
  nextExecution : option number
}.

Record Execution : Type := {
  exec_orderId : Id;
  exec_timestamp : Z;
  exec_amountIn : number;
  exec_amountOut : number;
  exec_price : number;
  exec_status : string
}.

Record Strategy : Type := {
  strategy_id : Id;
  strategy_userId : Id;
  strategy_walletId : Id;
  isActive : bool;
  isPaused : bool;
  config : Config;
  stats : Stats;
  executions : list Execution
}.

Record ErrorLog : Type := {
  log_strategyId : Id;
  log_error : Error;
  log_timestamp : Z
}.

(** A row of [priceFeeds]: [price] and [metrics.volume24h] are kept as the
    numbers [parseFloat] reads from them, [feed_price24h] is
    [changes.price24h]. *)
Record PriceFeed : Type := {
  feed_tokenMint : string;
  feed_symbol : string;
  feed_name : string;
  feed_price : number;
  feed_price24h : number;
  feed_volume24h : number;
  feed_timestamp : Z
}.

Record Db : Type := {
  users : list User;
  wallets : list Wallet;
  orders : list Order;
  positions : list Position;
  dcaStrategies : list Strategy;
  dcaErrors : list ErrorLog;
  priceFeeds : list PriceFeed;
  scheduledTrades : list Id;
  nextId : Id
}.

(** [ctx.db.get(id)] on the three tables that are read by id. *)
Definition get_user (db : Db) (id : Id) : option User :=
  find (fun u => Nat.eqb (user_id u) id) (users db).

Definition get_wallet (db : Db) (id : Id) : option Wallet :=
  find (fun w => Nat.eqb (wallet_id w) id) (wallets db).

End Store.

Import Store.

(* ================================================================== *)
(** ** mutations/trading *)
(* ================================================================== *)

Module Trading.

Record PlaceTradeArgs : Type := {
  arg_userId : Id;
  arg_walletId : Id;
  arg_type : OrderType;
  arg_side : Side;
  arg_tokenIn : TokenIn;
  arg_tokenOut : TokenOut;
  arg_slippage : number
}.

Definition side_eqb (a b : Side) : bool :=
  match a, b with
  | buy, buy | sell, sell => true
  | _, _ => false
  end.

(** [ctx.db.patch(args.userId, { lastActive })]. *)
Definition touch_user (id : Id) (now : Z) (us : list User) : list User :=
  map (fun u =>
         if Nat.eqb (user_id u) id
         then {| user_id := user_id u;
                 user_isActive := user_isActive u;
                 user_dailyTrades := user_dailyTrades u;
                 user_maxOpenPositions := user_maxOpenPositions u;
                 user_lastActive := now |}
         else u) us.

(** What [placeTrade] returns. *)
Record PlaceTradeResult : Type := {
  res_orderId : Id;
  res_status : string
}.

(** [ctx.db.insert("orders", order)]: the document is checked against the
    schema before it is stored. *)
Definition insert_order (order : Order) (db : Db) : Result (Id * Db) :=
  match orders_schema order with
  | Throw e => Throw e
  | Ok _ =>
      Ok (order_id order,
          {| users := users db;
             wallets := wallets db;
             orders := orders db ++ [order];
             positions := positions db;
             dcaStrategies := dcaStrategies db;
             dcaErrors := dcaErrors db;
             priceFeeds := priceFeeds db;
             scheduledTrades := scheduledTrades db;
             nextId := S (nextId db) |})
  end.

(** Place a new trade order.  [now] is the reading of [Date.now()] and
    [todayStart] the local midnight before it.  A mutation is a transaction:
    when it throws, the database is as before.  The document handed to
    [insert] has every field the handler writes; it writes no [metadata]. *)
Definition placeTrade (now todayStart : Z) (args : PlaceTradeArgs) (db : Db)
  : Result (PlaceTradeResult * Db) :=
  match get_user db (arg_userId args) with
  | None => Throw UserNotFoundOrInactive
  | Some user =>
      if negb (user_isActive user) then Throw UserNotFoundOrInactive
      else
        match get_wallet db (arg_walletId args) with
        | None => Throw InvalidWallet
        | Some wallet =>
            if negb (Nat.eqb (wallet_userId wallet) (arg_userId args))
            then Throw InvalidWallet
            else
              let todayOrders :=
                filter (fun o => Nat.eqb (order_userId o) (arg_userId args)
                                 && (todayStart <=? order_createdAt o))
                       (orders db) in
              if user_dailyTrades user <=? len todayOrders
              then Throw (DailyTradeLimitReached (user_dailyTrades user))
              else
                let openPositions :=
                  filter (fun p => Nat.eqb (pos_userId p) (arg_userId args))
                         (positions db) in
                if side_eqb (arg_side args) buy
                   && (user_maxOpenPositions user <=? len openPositions)
                then Throw (MaximumOpenPositionsReached
                              (user_maxOpenPositions user))
                else
                  let order :=
                    {| order_id := nextId db;
                       order_userId := arg_userId args;
                       order_walletId := arg_walletId args;
                       order_type := arg_type args;
                       order_side := arg_side args;
                       order_status := pending;
                       order_tokenIn := arg_tokenIn args;
                       order_tokenOut := arg_tokenOut args;
                       order_tokenOut_amount := num 0;
                       order_expectedPrice := num 0;
                       order_slippage := arg_slippage args;
                       order_metadata := None;
                       order_createdAt := now;
                       order_updatedAt := now |} in
                  match insert_order order db with
                  | Throw e => Throw e
                  | Ok (orderId, db1) =>
                      Ok ({| res_orderId := orderId;
                             res_status := "submitted" |},
                          {| users :=
                               touch_user (arg_userId args) now (users db1);
                             wallets := wallets db1;
                             orders := orders db1;
                             positions := positions db1;
                             dcaStrategies := dcaStrategies db1;
                             dcaErrors := dcaErrors db1;
                             priceFeeds := priceFeeds db1;
                             scheduledTrades :=
                               scheduledTrades db1 ++ [orderId];
                             nextId := nextId db1 |})
                  end
        end
  end.

Inductive PositionAction : Type := act_add | act_remove | act_update.

Record UpdatePositionArgs : Type := {
  up_userId : Id;
  up_walletId : Id;
  up_tokenMint : string;
  up_symbol : string;
  up_name : string;
  up_amount : number;
  up_price : number;
  up_action : PositionAction
}.

(** The [action] field of what [updatePosition] returns. *)
Inductive PositionOutcome : Type := updated | created | closed | reduced.

(** The query [by_user_token ... .first()]. *)
Definition find_position (userId : Id) (tokenMint : string) (ps : list Position)
  : option Position :=
  find (fun p => Nat.eqb (pos_userId p) userId
                 && String.eqb (pos_tokenMint p) tokenMint) ps.

(** [ctx.db.patch(id, fields)], given the document as patched. *)
Definition patch_position (id : Id) (p' : Position) (ps : list Position)
  : list Position :=
  map (fun p => if Nat.eqb (pos_id p) id then p' else p) ps.

(** [ctx.db.delete(id)]. *)
Definition delete_position (id : Id) (ps : list Position) : list Position :=
  filter (fun p => negb (Nat.eqb (pos_id p) id)) ps.

Definition with_positions (db : Db) (ps : list Position) (next : Id) : Db :=
  {| users := users db;
     wallets := wallets db;
     orders := orders db;
     positions := ps;
     dcaStrategies := dcaStrategies db;
     dcaErrors := dcaErrors db;
     priceFeeds := priceFeeds db;
     scheduledTrades := scheduledTrades db;
     nextId := next |}.

(** Update or create position after trade.  The amounts the handler
    writes with [toString()] are kept as the numbers read back from them;
    [amount] and [price] of the arguments are what [parseFloat] reads from
    the strings given. *)
Definition updatePosition (now : Z) (args : UpdatePositionArgs) (db : Db)
  : Result (Id * PositionOutcome * Db) :=
  let existing :=
    find_position (up_userId args) (up_tokenMint args) (positions db) in
  match up_action args, existing with
  | (act_add | act_update), Some existing =>
      let currentAmount := pos_amount existing in
      let currentAvgPrice := pos_averagePrice existing in
      let newAmount := up_amount args in
      let newPrice := up_price args in
      let '(updatedAmount, updatedAvgPrice) :=
        match up_action args with
        | act_add =>
            let updatedAmount := add currentAmount newAmount in
            (updatedAmount,
             div (add (mul currentAmount currentAvgPrice)
                      (mul newAmount newPrice)) updatedAmount)
        | _ => (currentAmount, currentAvgPrice)
        end in
      let marketValue := mul updatedAmount newPrice in
      let costBasis := mul updatedAmount updatedAvgPrice in
      let pnlAmount := sub marketValue costBasis in
      let pnlPercentage := mul (div pnlAmount costBasis) (num 100) in
      let patched :=
        {| pos_id := pos_id existing;
           pos_userId := pos_userId existing;
           pos_walletId := pos_walletId existing;
           pos_tokenMint := pos_tokenMint existing;
           pos_symbol := pos_symbol existing;
           pos_name := pos_name existing;
           pos_amount := reread updatedAmount;
           pos_averagePrice := reread updatedAvgPrice;
           pos_currentPrice := up_price args;
           pos_marketValue := reread marketValue;
           pos_costBasis := reread costBasis;
           pos_pnl := {| pnl_amount := reread pnlAmount;
                         pnl_percentage := pnlPercentage;
                         pnl_isProfit := gt pnlAmount (num 0) |};
           pos_openedAt := pos_openedAt existing;
           pos_lastUpdated := now |} in
      Ok (pos_id existing, updated,
          with_positions db
            (patch_position (pos_id existing) patched (positions db))
            (nextId db))
  | (act_add | act_update), None =>
      let amount := up_amount args in
      let price := up_price args in
      let marketValue := mul amount price in
      let costBasis := marketValue in
      let positionId := nextId db in
      let inserted :=
        {| pos_id := positionId;
           pos_userId := up_userId args;
           pos_walletId := up_walletId args;
           pos_tokenMint := up_tokenMint args;
           pos_symbol := up_symbol args;
           pos_name := up_name args;
           pos_amount := up_amount args;
           pos_averagePrice := up_price args;
           pos_currentPrice := up_price args;
           pos_marketValue := reread marketValue;
           pos_costBasis := reread costBasis;
           pos_pnl := {| pnl_amount := num 0;
                         pnl_percentage := num 0;
                         pnl_isProfit := false |};
           pos_openedAt := now;
           pos_lastUpdated := now |} in
      Ok (positionId, created,
          with_positions db (positions db ++ [inserted]) (S (nextId db)))
  | act_remove, Some existing =>
      let currentAmount := pos_amount existing in
      let removeAmount := up_amount args in
      if ge removeAmount currentAmount then
        Ok (pos_id existing, closed,
            with_positions db
              (delete_position (pos_id existing) (positions db)) (nextId db))
      else
        let remainingAmount := sub currentAmount removeAmount in
        let price := up_price args in
        let marketValue := mul remainingAmount price in
        let costBasis := mul remainingAmount (pos_averagePrice existing) in
        let pnlAmount := sub marketValue costBasis in
        let pnlPercentage := mul (div pnlAmount costBasis) (num 100) in
        let patched :=
          {| pos_id := pos_id existing;
             pos_userId := pos_userId existing;
             pos_walletId := pos_walletId existing;
             pos_tokenMint := pos_tokenMint existing;
             pos_symbol := pos_symbol existing;
             pos_name := pos_name existing;
             pos_amount := reread remainingAmount;
             pos_averagePrice := pos_averagePrice existing;
             pos_currentPrice := up_price args;
             pos_marketValue := reread marketValue;
             pos_costBasis := reread costBasis;
             pos_pnl := {| pnl_amount := reread pnlAmount;
                           pnl_percentage := pnlPercentage;
                           pnl_isProfit := gt pnlAmount (num 0) |};
             pos_openedAt := pos_openedAt existing;
             pos_lastUpdated := now |} in
        Ok (pos_id existing, reduced,
            with_positions db
              (patch_position (pos_id existing) patched (positions db))
              (nextId db))
  | act_remove, None => Throw InvalidPositionUpdate
  end.

End Trading.

Import Trading.

(* ================================================================== *)
(** ** queries/portfolio and queries/prices *)
(* ================================================================== *)

Module Portfolio.

(** [await q.take(n)] answers an array, which has no method [collect]; the
    chain [q.take(n).collect()] throws before anything is read. *)
Definition take_collect {A} (rows : list A) (n : Z) : Result (list A) :=
  Throw (TypeError "collect is not a function").

(** [.withIndex("by_token", ...).order("desc").first()] on [priceFeeds],
    whose rows are kept newest first. *)
Definition latest_feed (db : Db) (tokenMint : string) : option PriceFeed :=
  find (fun f => String.eqb (feed_tokenMint f) tokenMint) (priceFeeds db).

(** What [getPosition] answers.  The strings [price] and [volume24h] of a
    stored feed are not empty, so [||] keeps them. *)
Record PositionDetails : Type := {
  pd_position : Position;
  pd_currentPrice : number;
  pd_priceChange24h : number;
  pd_volume24h : number;
  pd_trades : list Id;
  pd_lastPriceUpdate : Z
}.

(** Get specific position details. *)
Definition getPosition (now : Z) (args : Object) (db : Db)
  : Result PositionDetails :=
  if negb (validate [("positionId"%string, v_id)]
                    [("includeHistory"%string, v_boolean)] args)
  then Throw (ArgumentValidationError "queries/portfolio:getPosition")
  else
    match field "positionId" args with
    | Some (V_id positionId) =>
        match find (fun p => Nat.eqb (pos_id p) positionId) (positions db) with
        | None => Throw (OtherError "Position not found")
        | Some position =>
            match
              match field "includeHistory" args with
              | Some (V_boolean true) => take_collect ([] : list Id) 10
              | _ => Ok []
              end
            with
            | Throw e => Throw e
            | Ok trades =>
                let priceFeed := latest_feed db (pos_tokenMint position) in
                Ok {| pd_position := position;
                      pd_currentPrice :=
                        match priceFeed with
                        | Some f => feed_price f
                        | None => pos_currentPrice position
                        end;
                      pd_priceChange24h :=
                        or_default (option_map feed_price24h priceFeed)
                                   (num 0);
                      pd_volume24h :=
                        match priceFeed with
                        | Some f => feed_volume24h f
                        | None => num 0
                        end;
                      pd_trades := trades;
                      pd_lastPriceUpdate :=
                        match priceFeed with
                        | Some f =>
                            if feed_timestamp f =? 0 then now
                            else feed_timestamp f
                        | None => now
                        end |}
            end
        end
    | _ => Throw (ArgumentValidationError "queries/portfolio:getPosition")
    end.

End Portfolio.

(* ================================================================== *)
(** ** actions/dca *)
(* ================================================================== *)

Module Dca.

(** The calls an action makes through [ctx.runQuery] and
    [ctx.runMutation], in the order it makes them. *)
Inductive Call : Type :=
| Q_getDueStrategies (timestamp : Z)
| Q_getValueAveragingStrategies
| Q_getActiveStrategies
| Q_getCurrentPrice (tokenMint : string)
| Q_getPriceChange24h (tokenMint : string)
| Q_getPosition (args : Object)
| M_placeTrade (args : PlaceTradeArgs)
| M_recordExecution (strategyId : Id) (orderId : PlaceTradeResult)
                    (amount : number) (timestamp : Z)
| M_updateNextExecution (strategyId : Id) (nextExecution : number)
| M_logError (strategyId : Id) (error : Error) (timestamp : Z).

(** The queries and mutations of [queries/dca], [mutations/dca] and
    [queries/prices] that the actions call and that are not among the
    sources.  A query reads the database; a mutation is a transaction and
    either throws or yields the new database.  [getCurrentPrice] stands for
    the query followed by the [parseFloat] the caller applies to the price.
    [recordExecution] is handed, as [orderId], what [placeTrade]
    returned. *)
Record Api : Type := {
  getDueStrategies : Z -> Db -> Result (list Strategy);
  getValueAveragingStrategies : Db -> Result (list Strategy);
  getActiveStrategies : Db -> Result (list Strategy);
  getCurrentPrice : string -> Db -> Result number;
  getPriceChange24h : string -> Db -> Result number;
  recordExecution : Id -> PlaceTradeResult -> number -> Z -> Db -> Result Db;
  updateNextExecution : Id -> number -> Db -> Result Db;
  logError : Id -> Error -> Z -> Db -> Result Db
}.

Record World : Type := {
  db : Db;
  calls : list Call
}.

(** An action: it may throw half-way, after some of its mutations have been
    committed. *)
Definition Action (A : Type) : Type := World -> Result A * World.

Definition ret {A} (a : A) : Action A := fun w => (Ok a, w).

Definition bind {A B} (m : Action A) (f : A -> Action B) : Action B :=
  fun w =>
    match m w with
    | (Ok a, w') => f a w'
    | (Throw e, w') => (Throw e, w')
    end.

Notation "x <- m ;; f" := (bind m (fun x => f))
  (at level 61, m at next level, right associativity).

(** [try { body } catch (error) { handler }]. *)
Definition try_catch {A} (body : Action A) (handler : Error -> Action A)
  : Action A :=
  fun w =>
    match body w with
    | (Ok a, w') => (Ok a, w')
    | (Throw e, w') => handler e w'
    end.

(** [await ctx.runQuery(q, args)]. *)
Definition runQuery {A} (c : Call) (q : Db -> Result A) : Action A :=
  fun w => (q (db w), {| db := db w; calls := calls w ++ [c] |}).

(** [await ctx.runMutation(m, args)]. *)
Definition runMutation {A} (c : Call) (m : Db -> Result (A * Db)) : Action A :=
  fun w =>
    match m (db w) with
    | Ok (a, db') => (Ok a, {| db := db'; calls := calls w ++ [c] |})
    | Throw e => (Throw e, {| db := db w; calls := calls w ++ [c] |})
    end.

Definition unit_mutation (m : Db -> Result Db) : Db -> Result (unit * Db) :=
  fun d => match m d with Ok d' => Ok (tt, d') | Throw e => Throw e end.

(** [for (const x of xs) { s = body(x, s) }], stopped by the first
    iteration that throws. *)
Fixpoint for_each {X S} (xs : list X) (body : X -> S -> Action S) (s : S)
  : Action S :=
  match xs with
  | [] => ret s
  | x :: xs' => s' <- body x s ;; for_each xs' body s'
  end.

Definition calculateTargetValue (strategy : Strategy) : number :=
  let executionNumber := add (totalExecutions (stats strategy)) (num 1) in
  let baseAmount := cfg_amount (config strategy) in
  mul baseAmount executionNumber.

Definition adjustForMarketConditions (amount : number)
  (conditions : option Conditions) : number :=
  match conditions with
  | Some c =>
      if flag_set (volatilityAdjustment c) then mul amount (dec 8 10)
      else amount
  | None => amount
  end.

Definition getNextCronExecution (cronExpression : string) (currentTime : Z)
  : number :=
  add (num currentTime) (num (60 * 60 * 1000)).

Definition calculateDynamicExecution (config : string) (currentTime : Z)
  : number :=
  add (num currentTime) (num (2 * 60 * 60 * 1000)).

Definition string_slice (s : string) (start stop : Z) : string :=
  string_of_list_ascii (slice (list_ascii_of_string s) start stop).

Definition string_slice_from (s : string) (start : Z) : string :=
  string_of_list_ascii (slice_from (list_ascii_of_string s) start).

Section Actions.

(** Every action takes [now], the reading of [Date.now()]; the clock is
    taken to stand still during one run, so the mutations the action calls
    read the same value. *)

(** [parseInt], provided by the JavaScript runtime. *)
Variable parseInt : string -> number.

(** The local midnight before a reading of the clock,
    [new Date().setHours(0, 0, 0, 0)]. *)
Variable startOfDay : Z -> Z.

Variable api : Api.

Definition parseInterval (interval : string) : number :=
  let unit := string_slice_from interval (-1) in
  let value := parseInt (string_slice interval 0 (-1)) in
  if String.eqb unit "m" then mul (mul value (num 60)) (num 1000)
  else if String.eqb unit "h"
  then mul (mul (mul value (num 60)) (num 60)) (num 1000)
  else if String.eqb unit "d"
  then mul (mul (mul (mul value (num 24)) (num 60)) (num 60)) (num 1000)
  else if String.eqb unit "w"
  then mul (mul (mul (mul (mul value (num 7)) (num 24)) (num 60)) (num 60))
           (num 1000)
  else num (60 * 60 * 1000).

Definition calculateNextExecution (frequency : Frequency) (currentTime : Z)
  : number :=
  match freq_type frequency with
  | interval => add (num currentTime) (parseInterval (freq_value frequency))
  | cron => getNextCronExecution (freq_value frequency) currentTime
  | dynamic => calculateDynamicExecution (freq_value frequency) currentTime
  | other_frequency => add (num currentTime) (num (60 * 60 * 1000))
  end.

(** The three limit checks at the end of [checkStrategyConditions];
    [now] is the reading of [Date.now()]. *)
Definition checkLimits (now : Z) (strategy : Strategy) : bool :=
  let limits := cfg_limits (config strategy) in
  if match maxExecutions limits with
     | Some m => truthy m && ge (totalExecutions (stats strategy)) m
     | None => false
     end
  then false
  else
    if match maxInvestment limits with
       | Some m => ge (totalInvested (stats strategy)) m
       | None => false
       end
    then false
    else
      if match endDate limits with
         | Some e => truthy e && gt (num now) e
         | None => false
         end
      then false
      else true.

(** The buy-the-dip check and what follows it. *)
Definition checkDip (now : Z) (strategy : Strategy) (conditions : Conditions)
  : Action bool :=
  if onlyBuyDips conditions then
    priceChange <-
      runQuery (Q_getPriceChange24h (cfg_tokenOut_mint (config strategy)))
               (getPriceChange24h api (cfg_tokenOut_mint (config strategy))) ;;
    let dipThreshold := or_default (dipThreshold conditions) (num (-5)) in
    if gt priceChange dipThreshold then ret false
    else ret (checkLimits now strategy)
  else ret (checkLimits now strategy).

Definition checkStrategyConditions (now : Z) (strategy : Strategy)
  : Action bool :=
  match cfg_conditions (config strategy) with
  | None => ret true
  | Some conditions =>
      match minPrice conditions, maxPrice conditions with
      | None, None => checkDip now strategy conditions
      | _, _ =>
          currentPrice <-
            runQuery (Q_getCurrentPrice (cfg_tokenOut_mint (config strategy)))
                     (getCurrentPrice api (cfg_tokenOut_mint (config strategy))) ;;
          if match minPrice conditions with
             | Some m => lt currentPrice m
             | None => false
             end
          then ret false
          else
            if match maxPrice conditions with
               | Some m => gt currentPrice m
               | None => false
               end
            then ret false
            else checkDip now strategy conditions
      end
  end.

(** The arguments of the market buy every DCA action places. *)
Definition buyArgs (strategy : Strategy) (amount slippage : number)
  : PlaceTradeArgs :=
  {| arg_userId := strategy_userId strategy;
     arg_walletId := strategy_walletId strategy;
     arg_type := market;
     arg_side := buy;
     arg_tokenIn := {| in_mint := cfg_tokenIn_mint (config strategy);
                       in_symbol := cfg_tokenIn_symbol (config strategy);
                       in_amount := amount;
                       in_decimals := 9 |};
     arg_tokenOut := {| out_mint := cfg_tokenOut_mint (config strategy);
                        out_symbol := cfg_tokenOut_symbol (config strategy);
                        out_decimals := 9 |};
     arg_slippage := slippage |}.

Definition runPlaceTrade (now : Z) (args : PlaceTradeArgs)
  : Action PlaceTradeResult :=
  runMutation (M_placeTrade args) (placeTrade now (startOfDay now) args).

Record Results : Type := {
  total : Z;
  executed : Z;
  failed : Z;
  skipped : Z
}.

Definition count_executed (r : Results) : Results :=
  {| total := total r; executed := executed r + 1;
     failed := failed r; skipped := skipped r |}.

Definition count_failed (r : Results) : Results :=
  {| total := total r; executed := executed r;
     failed := failed r + 1; skipped := skipped r |}.

Definition count_skipped (r : Results) : Results :=
  {| total := total r; executed := executed r;
     failed := failed r; skipped := skipped r + 1 |}.

(** One iteration of the loop of [executeScheduledStrategies]. *)
Definition executeStrategy (now : Z) (strategy : Strategy) (results : Results)
  : Action Results :=
  try_catch
    (shouldExecute <- checkStrategyConditions now strategy ;;
     if negb shouldExecute then ret (count_skipped results)
     else
       orderId <-
         runPlaceTrade now
           (buyArgs strategy (cfg_amount (config strategy)) (num 1)) ;;
       _ <- runMutation
              (M_recordExecution (strategy_id strategy) orderId
                                 (cfg_amount (config strategy)) now)
              (unit_mutation
                 (recordExecution api (strategy_id strategy) orderId
                                  (cfg_amount (config strategy)) now)) ;;
       let nextExecution :=
         calculateNextExecution (cfg_frequency (config strategy)) now in
       _ <- runMutation
              (M_updateNextExecution (strategy_id strategy) nextExecution)
              (unit_mutation
                 (updateNextExecution api (strategy_id strategy)
                                      nextExecution)) ;;
       ret (count_executed results))
    (fun error =>
       _ <- runMutation
              (M_logError (strategy_id strategy) error now)
              (unit_mutation (logError api (strategy_id strategy) error now)) ;;
       ret (count_failed results)).

(** Execute scheduled DCA strategies; [now] is [Date.now()], read once. *)
Definition executeScheduledStrategies (now : Z) : Action Results :=
  strategies <- runQuery (Q_getDueStrategies now) (getDueStrategies api now) ;;
  let results :=
    {| total := len strategies; executed := 0; failed := 0; skipped := 0 |} in
  for_each strategies (executeStrategy now) results.

(** The arguments [getCurrentPositionValue] hands to [getPosition]. *)
Definition positionArgs (strategy : Strategy) : Object :=
  [("userId"%string, V_id (strategy_userId strategy));
   ("tokenMint"%string, V_string (cfg_tokenOut_mint (config strategy)))].

(** The answer of [getPosition] is an object, which is truthy, without a
    field [marketValue]: [parseFloat(undefined)] is NaN. *)
Definition getCurrentPositionValue (now : Z) (strategy : Strategy)
  : Action number :=
  position <-
    runQuery (Q_getPosition (positionArgs strategy))
             (Portfolio.getPosition now (positionArgs strategy)) ;;
  ret NaN.

(** One iteration of the loop of [processValueAveraging]. *)
Definition valueAverage (now : Z) (strategy : Strategy) (_ : unit)
  : Action unit :=
  try_catch
    (let targetValue := calculateTargetValue strategy in
     currentValue <- getCurrentPositionValue now strategy ;;
     let investmentAmount := sub targetValue currentValue in
     if le investmentAmount (num 0) then ret tt
     else
       let adjustedAmount :=
         adjustForMarketConditions investmentAmount
                                   (cfg_conditions (config strategy)) in
       _ <- runPlaceTrade now
              (buyArgs strategy (reread adjustedAmount) (dec 15 10)) ;;
       ret tt)
    (fun _ => ret tt).

(** Process value averaging DCA strategies. *)
Definition processValueAveraging (now : Z) : Action unit :=
  strategies <-
    runQuery Q_getValueAveragingStrategies (getValueAveragingStrategies api) ;;
  for_each strategies (valueAverage now) tt.




End Actions.

End Dca.

Import Dca.

(* ================================================================== *)
(** ** queries/dca, mutations/dca and the price queries *)
(* ================================================================== *)

Module DcaStore.

Definition with_strategies (db : Db) (ss : list Strategy) : Db :=
  {| users := users db;
     wallets := wallets db;
     orders := orders db;
     positions := positions db;
     dcaStrategies := ss;
     dcaErrors := dcaErrors db;
     priceFeeds := priceFeeds db;
     scheduledTrades := scheduledTrades db;
     nextId := nextId db |}.

Definition get_strategy (db : Db) (id : Id) : option Strategy :=
  find (fun s => Nat.eqb (strategy_id s) id) (dcaStrategies db).

Definition patch_strategy (id : Id) (f : Strategy -> Strategy)
  (ss : list Strategy) : list Strategy :=
  map (fun s => if Nat.eqb (strategy_id s) id then f s else s) ss.

(** Modelled from the spec: [queries/dca.getDueStrategies] is not among the
    sources.  A polling tick enumerates the strategies that are Active (not
    paused) and whose [nextExecution] is at or before the tick. *)
Definition getDueStrategies (timestamp : Z) (db : Db) : Result (list Strategy) :=
  Ok (filter
        (fun s => isActive s && negb (isPaused s)
                  && match nextExecution (stats s) with
                     | Some t => le t (num timestamp)
                     | None => false
                     end)
        (dcaStrategies db)).

(** Modelled from the spec: [queries/dca.getValueAveragingStrategies] is not
    among the sources.  The Active strategies of the value-averaging
    variant. *)
Definition getValueAveragingStrategies (db : Db) : Result (list Strategy) :=
  Ok (filter
        (fun s => isActive s && negb (isPaused s)
                  && valueAveraging (cfg_advanced (config s)))
        (dcaStrategies db)).

(** Modelled from the spec: [queries/dca.getActiveStrategies] is not among
    the sources.  The strategies in state Active. *)
Definition getActiveStrategies (db : Db) : Result (list Strategy) :=
  Ok (filter (fun s => isActive s && negb (isPaused s)) (dcaStrategies db)).

Definition get_feed (db : Db) (tokenMint : string) : option PriceFeed :=
  find (fun f => String.eqb (feed_tokenMint f) tokenMint) (priceFeeds db).

(** Modelled from the spec: [queries/prices.getCurrentPrice] is not among
    the sources.  The latest price of the asset. *)
Definition getCurrentPrice (tokenMint : string) (db : Db) : Result number :=
  match get_feed db tokenMint with
  | Some f => Ok (feed_price f)
  | None => Throw (OtherError "Price not found")
  end.

(** Modelled from the spec: [queries/prices.getPriceChange24h] is not among
    the sources.  The trailing 24h change of the asset, in percent. *)
Definition getPriceChange24h (tokenMint : string) (db : Db) : Result number :=
  match get_feed db tokenMint with
  | Some f => Ok (feed_price24h f)
  | None => Throw (OtherError "Price not found")
  end.

Definition has_execution (timestamp : Z) (s : Strategy) : bool :=
  existsb (fun e => exec_timestamp e =? timestamp) (executions s).

(** Modelled from the spec: [mutations/dca.recordExecution] is not among the
    sources.  It appends an execution record and counts the fill in the
    runtime statistics.  The spec rejects a second record under one
    (strategyId, scheduledTime); the records of the schema carry no
    scheduled time, only the [timestamp] the caller hands over, so it is the
    timestamp that is compared here. *)
Definition recordExecution (strategyId : Id) (orderId : PlaceTradeResult)
  (amount : number) (timestamp : Z) (db : Db) : Result Db :=
  match get_strategy db strategyId with
  | None => Throw (OtherError "Strategy not found")
  | Some s =>
      if has_execution timestamp s then Throw ConcurrencyConflict
      else
        Ok (with_strategies db
              (patch_strategy strategyId
                 (fun s =>
                    {| strategy_id := strategy_id s;
                       strategy_userId := strategy_userId s;
                       strategy_walletId := strategy_walletId s;
                       isActive := isActive s;
                       isPaused := isPaused s;
                       config := config s;
                       stats :=
                         {| totalExecutions :=
                              add (totalExecutions (stats s)) (num 1);
                            totalInvested :=
                              add (totalInvested (stats s)) amount;
                            totalReceived := totalReceived (stats s);
                            lastExecution := Some (num timestamp);
                            nextExecution := nextExecution (stats s) |};
                       executions :=
                         executions s ++
                         [{| exec_orderId := res_orderId orderId;
                             exec_timestamp := timestamp;
                             exec_amountIn := amount;
                             exec_amountOut := num 0;
                             exec_price := num 0;
                             exec_status := "pending" |}] |})
                 (dcaStrategies db)))
  end.

(** Modelled from the spec: [mutations/dca.updateNextExecution] is not among
    the sources.  It sets the strategy's [nextExecution]. *)
Definition updateNextExecution (strategyId : Id) (next : number) (db : Db)
  : Result Db :=
  match get_strategy db strategyId with
  | None => Throw (OtherError "Strategy not found")
  | Some _ =>
      Ok (with_strategies db
            (patch_strategy strategyId
               (fun s =>
                  {| strategy_id := strategy_id s;
                     strategy_userId := strategy_userId s;
                     strategy_walletId := strategy_walletId s;
                     isActive := isActive s;
                     isPaused := isPaused s;
                     config := config s;
                     stats :=
                       {| totalExecutions := totalExecutions (stats s);
                          totalInvested := totalInvested (stats s);
                          totalReceived := totalReceived (stats s);
                          lastExecution := lastExecution (stats s);
                          nextExecution := Some next |};
                     executions := executions s |})
               (dcaStrategies db)))
  end.

(** Modelled from the spec: [mutations/dca.logError] is not among the
    sources.  The failure is recorded against the strategy. *)
Definition logError (strategyId : Id) (error : Error) (timestamp : Z) (db : Db)
  : Result Db :=
  Ok {| users := users db;
        wallets := wallets db;
        orders := orders db;
        positions := positions db;
        dcaStrategies := dcaStrategies db;
        dcaErrors := dcaErrors db ++
                     [{| log_strategyId := strategyId;
                         log_error := error;
                         log_timestamp := timestamp |}];
        priceFeeds := priceFeeds db;
        scheduledTrades := scheduledTrades db;
        nextId := nextId db |}.

Definition api : Api :=
  {| Dca.getDueStrategies := getDueStrategies;
     Dca.getValueAveragingStrategies := getValueAveragingStrategies;
     Dca.getActiveStrategies := getActiveStrategies;
     Dca.getCurrentPrice := getCurrentPrice;
     Dca.getPriceChange24h := getPriceChange24h;
     Dca.recordExecution := recordExecution;
     Dca.updateNextExecution := updateNextExecution;
     Dca.logError := logError |}.

End DcaStore.

(* ================================================================== *)
(** ** The JavaScript runtime *)
(* ================================================================== *)

Module Runtime.

(** [Math.sqrt]: the correctly rounded square root. *)
Definition sqrt (a : number) : number := SFsqrt prec emax a.

Definition code (c : Ascii.ascii) : Z := Z.of_nat (Ascii.nat_of_ascii c).

(** White space and line terminators, among the ASCII characters. *)
Definition is_blank (c : Ascii.ascii) : bool :=
  let n := code c in
  (n =? 9) || (n =? 10) || (n =? 11) || (n =? 12) || (n =? 13) || (n =? 32).

Fixpoint trim_start (cs : list Ascii.ascii) : list Ascii.ascii :=
  match cs with
  | c :: cs' => if is_blank c then trim_start cs' else cs
  | [] => []
  end.

(** The value of a character as a digit of the radix, if it is one. *)
Definition digit (radix : Z) (c : Ascii.ascii) : option Z :=
  let n := code c in
  let d := if (48 <=? n) && (n <=? 57) then n - 48
           else if (97 <=? n) && (n <=? 122) then n - 87
           else if (65 <=? n) && (n <=? 90) then n - 55
           else 36 in
  if d <? radix then Some d else None.

(** The integer written by the leading digits, if there is one. *)
Fixpoint digits (radix : Z) (cs : list Ascii.ascii) (acc : option Z)
  : option Z :=
  match cs with
  | [] => acc
  | c :: cs' =>
      match digit radix c with
      | Some d =>
          digits radix cs'
                 (Some (radix * match acc with Some a => a | None => 0 end + d))
      | None => acc
      end
  end.

(** [parseInt(s)] without a radix, on a string of ASCII characters: leading
    blanks are dropped, a sign is read, a prefix [0x] or [0X] selects radix
    16, and the longest run of digits is read and rounded to the nearest
    number; without a digit the answer is NaN. *)
Definition parseInt (s : string) : number :=
  let cs := trim_start (list_ascii_of_string s) in
  let '(negative, cs) :=
    match cs with
    | c :: rest =>
        if code c =? 45 then (true, rest)
        else if code c =? 43 then (false, rest)
        else (false, cs)
    | [] => (false, [])
    end in
  let '(radix, cs) :=
    match cs with
    | z :: x :: rest =>
        if (code z =? 48) && ((code x =? 120) || (code x =? 88))
        then (16, rest) else (10, cs)
    | _ => (10, cs)
    end in
  match digits radix cs None with
  | Some z => if negative then neg (num z) else num z
  | None => NaN
  end.

(** Local midnight for a clock that counts from a midnight. *)
Definition startOfDay (now : Z) : Z := now - now mod 86400000.

End Runtime.

(* ================================================================== *)
(** ** Definitions used to state the properties *)
(* ================================================================== *)

Module Props.

Import Indicators.

(** *** Signal synthesis: the vote of each indicator *)

Inductive Vote : Type := Bullish | Bearish | Abstain.

(** The votes as the code casts them. *)
Definition rsiVote (rsi : option number) : Vote :=
  match rsi with
  | Some r =>
      if truthy r && lt r (num 30) then Bullish
      else if truthy r && gt r (num 70) then Bearish
      else Abstain
  | None => Abstain
  end.

Definition macdVote (m : option MACD) : Vote :=
  match m with
  | Some m =>
      if gt (macd m) (signal m) && gt (histogram m) (num 0) then Bullish
      else if lt (macd m) (signal m) && lt (histogram m) (num 0) then Bearish
      else Abstain
  | None => Abstain
  end.

Definition maVote (sma20 sma50 : option number) (price : number) : Vote :=
  if truthy_opt sma20 && truthy_opt sma50 then
    if gt price (or_default sma20 NaN)
       && gt (or_default sma20 NaN) (or_default sma50 NaN) then Bullish
    else if lt price (or_default sma20 NaN)
            && lt (or_default sma20 NaN) (or_default sma50 NaN) then Bearish
    else Abstain
  else Abstain.

Definition bbVote (bb : option Bollinger) (price : number) : Vote :=
  match bb with
  | Some bb =>
      if lt price (lower bb) then Bullish
      else if gt price (upper bb) then Bearish
      else Abstain
  | None => Abstain
  end.

(** The weight [w] on the side the vote is cast for. *)
Definition bullish_weight (w : Z) (v : Vote) : Z :=
  match v with Bullish => w | _ => 0 end.

Definition bearish_weight (w : Z) (v : Vote) : Z :=
  match v with Bearish => w | _ => 0 end.

Definition bullishVotes (rsi : option number) (m : option MACD)
  (bb : option Bollinger) (sma20 sma50 : option number) (price : number) : Z :=
  bullish_weight 2 (rsiVote rsi) + bullish_weight 1 (macdVote m)
  + bullish_weight 1 (maVote sma20 sma50 price)
  + bullish_weight 1 (bbVote bb price).

Definition bearishVotes (rsi : option number) (m : option MACD)
  (bb : option Bollinger) (sma20 sma50 : option number) (price : number) : Z :=
  bearish_weight 2 (rsiVote rsi) + bearish_weight 1 (macdVote m)
  + bearish_weight 1 (maVote sma20 sma50 price)
  + bearish_weight 1 (bbVote bb price).

(** The RSI vote in the words of the specification: an RSI extreme, below
    30 or above 70, contributes its votes; 0 is the lowest reading there
    is. *)
Definition specRsiVote (rsi : option number) : Vote :=
  match rsi with
  | Some r =>
      if lt r (num 30) then Bullish
      else if gt r (num 70) then Bearish
      else Abstain
  | None => Abstain
  end.

(** The output in the words of the specification: net = bullishVotes -
    bearishVotes with the weights 2, 1, 1, 1; hold with strength 0 when
    |net| <= 1, buy with min(100, net * 20) when net > 1, sell with
    min(100, |net| * 20) when net < -1. *)
Definition specSignal (rsi : option number) (m : option MACD)
  (bb : option Bollinger) (sma20 sma50 : option number) (price : number)
  : Overall * Z :=
  let bullishVotes :=
    bullish_weight 2 (specRsiVote rsi) + bullish_weight 1 (macdVote m)
    + bullish_weight 1 (maVote sma20 sma50 price)
    + bullish_weight 1 (bbVote bb price) in
  let bearishVotes :=
    bearish_weight 2 (specRsiVote rsi) + bearish_weight 1 (macdVote m)
    + bearish_weight 1 (maVote sma20 sma50 price)
    + bearish_weight 1 (bbVote bb price) in
  let net := bullishVotes - bearishVotes in
  if net >? 1 then (bullish, Z.min 100 (net * 20))
  else if net <? -1 then (bearish, Z.min 100 (Z.abs net * 20))
  else (neutral, 0).

(** *** RSI: simple trailing averages *)

(** The change from each price to the next. *)
Fixpoint changes (prices : list number) : list number :=
  match prices with
  | a :: (b :: _) as tl => sub b a :: changes tl
  | _ => []
  end.

Definition last_n {A} (n : nat) (xs : list A) : list A :=
  skipn (List.length xs - n) xs.

Definition gain (c : number) : number := if gt c (num 0) then c else num 0.
Definition loss (c : number) : number := if lt c (num 0) then abs c else num 0.

(** The changes the 14-period RSI looks at. *)
Definition rsi_window (prices : list number) : list number :=
  last_n 14 (changes prices).

(** The simple mean of the gains, and of the losses, of the window. *)
Definition avgGain (prices : list number) : number :=
  div (JS.sum (map gain (rsi_window prices))) (num 14).
Definition avgLoss (prices : list number) : number :=
  div (JS.sum (map loss (rsi_window prices))) (num 14).

(** *** Position ledger: a run of buy fills *)

(** A fill: the quantity bought and the price paid. *)
Definition Fill : Type := (number * number)%type.

Definition fill (userId walletId : Id) (tokenMint : string) (qp : Fill)
  : UpdatePositionArgs :=
  {| up_userId := userId;
     up_walletId := walletId;
     up_tokenMint := tokenMint;
     up_symbol := tokenMint;
     up_name := tokenMint;
     up_amount := fst qp;
     up_price := snd qp;
     up_action := act_add |}.

(** [updatePosition] called with [action: "add"] for each fill in turn. *)
Fixpoint applyBuys (now : Z) (userId walletId : Id) (tokenMint : string)
  (fills : list Fill) (db : Db) : Result Db :=
  match fills with
  | [] => Ok db
  | qp :: rest =>
      match updatePosition now (fill userId walletId tokenMint qp) db with
      | Ok (_, _, db') => applyBuys now userId walletId tokenMint rest db'
      | Throw e => Throw e
      end
  end.

(** One buy on a position of quantity [fst held] and average cost
    [snd held], in the arithmetic of the language:
    newQuantity = oldQuantity + quantity and newAverageCost =
    (oldQuantity * oldAverageCost + quantity * price) / newQuantity, each
    written to the ledger and read back. *)
Definition buy_step (held : number * number) (qp : Fill) : number * number :=
  let newQuantity := add (fst held) (fst qp) in
  (reread newQuantity,
   reread (div (add (mul (fst held) (snd held)) (mul (fst qp) (snd qp)))
               newQuantity)).

(** Quantity and average cost after a run of buys on an empty position:
    the first buy sets them, every later one takes a step. *)
Definition ledger (fills : list Fill) : option (number * number) :=
  match fills with
  | [] => None
  | first :: rest => Some (fold_left buy_step rest first)
  end.

Definition sumQ (qs : list Q) : Q := fold_left Qplus qs 0%Q.

Definition exact (a : number) : Q :=
  match value a with Some q => q | None => 0%Q end.

(** The quantity-weighted mean of the prices of finite fills, computed
    without rounding: the sum of q * p over the sum of q. *)
Definition weighted_mean (fills : list Fill) : Q :=
  (sumQ (map (fun qp => exact (fst qp) * exact (snd qp)) fills)
   / sumQ (map (fun qp => exact (fst qp)) fills))%Q.

End Props.

(* ================================================================== *)
(** ** Example data *)
(* ================================================================== *)

Module Examples.

Import Indicators Props.

(** A candle with high = low = close. *)
Definition flat_point : PricePoint :=
  {| close := num 5; volume := num 1000; high := num 5; low := num 5 |}.

Definition flat_series : list number := repeat (num 5) 14.

(** Fifteen closes that fall by one at every step, oldest first. *)
Definition falling15 : list Z :=
  [15; 14; 13; 12; 11; 10; 9; 8; 7; 6; 5; 4; 3; 2; 1].

(** Fifteen closes that rise by one at every step, oldest first. *)
Definition rising15 : list Z :=
  [1; 2; 3; 4; 5; 6; 7; 8; 9; 10; 11; 12; 13; 14; 15].

(** Fifteen closes, oldest first. *)
Definition closes15 : list Z :=
  [44; 45; 43; 46; 47; 45; 48; 49; 47; 50; 51; 49; 52; 53; 51].





Definition empty_db : Db :=
  {| users := []; wallets := []; orders := []; positions := [];
     dcaStrategies := []; dcaErrors := []; priceFeeds := [];
     scheduledTrades := []; nextId := 0%nat |}.

(** Buy 10 units at 10, then 5 units at 16. *)
Definition two_buys : list Fill := [(num 10, num 10); (num 5, num 16)].

(** Buy 1 unit at 0.1, then 5 units at 0.1. *)
Definition tenth_buys : list Fill := [(num 1, dec 1 10); (num 5, dec 1 10)].

Definition user1 : User :=
  {| user_id := 1%nat; user_isActive := true; user_dailyTrades := 100;
     user_maxOpenPositions := 10; user_lastActive := 0 |}.

Definition wallet1 : Wallet := {| wallet_id := 2%nat; wallet_userId := 1%nat |}.

Definition no_limits : Limits :=
  {| maxInvestment := None; maxExecutions := None; endDate := None |}.

Definition plain : Advanced :=
  {| valueAveraging := false; rebalancing := false; compounding := false |}.

(** Buy only on a dip of 5% or more. *)
Definition dip_only : Conditions :=
  {| minPrice := None; maxPrice := None; onlyBuyDips := true;
     dipThreshold := Some (num (-5)) |}.

(** A daily strategy of 50 USDC into SOL, due at time 1000. *)
Definition daily (conditions : option Conditions) (limits : Limits)
  (advanced : Advanced) (executionsSoFar : Z) : Strategy :=
  {| strategy_id := 7%nat;
     strategy_userId := 1%nat;
     strategy_walletId := 2%nat;
     isActive := true;
     isPaused := false;
     config := {| cfg_tokenIn_mint := "USDC";
                  cfg_tokenIn_symbol := "USDC";
                  cfg_tokenOut_mint := "SOL";
                  cfg_tokenOut_symbol := "SOL";
                  cfg_amount := num 50;
                  cfg_frequency := {| freq_type := interval;
                                      freq_value := "1d" |};
                  cfg_conditions := conditions;
                  cfg_limits := limits;
                  cfg_advanced := advanced |};
     stats := {| totalExecutions := num executionsSoFar;
                 totalInvested := num (50 * executionsSoFar);
                 totalReceived := num 0;
                 lastExecution := None;
                 nextExecution := Some (num 1000) |};
     executions := [] |}.

(** A database with one user, one wallet, the given strategies and a SOL
    price of 100 that moved by [change24h] percent in 24 hours. *)
Definition market_world (strategies : list Strategy) (change24h : Z) : World :=
  {| db := {| users := [user1];
              wallets := [wallet1];
              orders := [];
              positions := [];
              dcaStrategies := strategies;
              dcaErrors := [];
              priceFeeds := [{| feed_tokenMint := "SOL";
                                feed_symbol := "SOL";
                                feed_name := "Solana";
                                feed_price := num 100;
                                feed_price24h := num change24h;
                                feed_volume24h := num 900;
                                feed_timestamp := 500 |}];
              scheduledTrades := [];
              nextId := 100%nat |};
     calls := [] |}.

Definition dip_strategy : Strategy := daily (Some dip_only) no_limits plain 0.

(** No conditions, at most one execution, five executions so far. *)
Definition exhausted_strategy : Strategy :=
  daily None
        {| maxInvestment := None; maxExecutions := Some (num 1);
           endDate := None |}
        plain 5.

(** A value-averaging strategy after two executions. *)
Definition averaging_strategy : Strategy :=
  daily None no_limits
        {| valueAveraging := true; rebalancing := false;
           compounding := false |}
        2.

End Examples.

(* ================================================================== *)
(** ** queries/prices: the price history *)
(* ================================================================== *)

Module Prices.

Import Portfolio.

Inductive Interval : Type := I1m | I5m | I15m | I1h | I4h | I1d.

Definition getIntervalMs (interval : Interval) : Z :=
  match interval with
  | I1m => 60 * 1000
  | I5m => 5 * 60 * 1000
  | I15m => 15 * 60 * 1000
  | I1h => 60 * 60 * 1000
  | I4h => 4 * 60 * 60 * 1000
  | I1d => 24 * 60 * 60 * 1000
  end.

Record Ohlcv : Type := {
  o_timestamp : Z;
  o_open : number;
  o_high : number;
  o_low : number;
  o_close : number;
  o_volume : number
}.

Record TokenInfo : Type := {
  info_mint : string;
  info_symbol : string;
  info_name : string
}.

Record History : Type := {
  data : list Ohlcv;
  interval : Interval;
  token : option TokenInfo
}.

(** [Math.floor(timestamp / intervalMs) * intervalMs]. *)
Definition bucket_of (intervalMs timestamp : Z) : Z :=
  timestamp / intervalMs * intervalMs.

(** A [Map] from buckets to rows: the entries in insertion order. *)
Definition Grouped : Type := list (Z * PriceFeed).

Definition grouped_get (bucket : Z) (g : Grouped) : option PriceFeed :=
  option_map snd (find (fun e => fst e =? bucket) g).

(** [grouped.set(bucket, row)]: a key that is present keeps its place. *)
Fixpoint grouped_set (bucket : Z) (row : PriceFeed) (g : Grouped) : Grouped :=
  match g with
  | [] => [(bucket, row)]
  | (b, r) :: rest =>
      if b =? bucket then (bucket, row) :: rest
      else (b, r) :: grouped_set bucket row rest
  end.

(** The body of [prices.forEach]. *)
Definition group_step (intervalMs : Z) (g : Grouped) (price : PriceFeed)
  : Grouped :=
  let bucket := bucket_of intervalMs (feed_timestamp price) in
  match grouped_get bucket g with
  | None => grouped_set bucket price g
  | Some current =>
      if feed_timestamp current <? feed_timestamp price
      then grouped_set bucket price g
      else g
  end.

Definition group (intervalMs : Z) (prices : list PriceFeed) : Grouped :=
  fold_left (group_step intervalMs) prices [].

(** [entries.sort((a, b) => a[0] - b[0])], a stable sort by bucket. *)
Fixpoint insert_entry (e : Z * PriceFeed) (sorted : Grouped) : Grouped :=
  match sorted with
  | [] => [e]
  | x :: rest =>
      if fst e <? fst x then e :: x :: rest else x :: insert_entry e rest
  end.

Definition sort_entries (g : Grouped) : Grouped :=
  fold_left (fun sorted e => insert_entry e sorted) g [].

Definition to_ohlcv (e : Z * PriceFeed) : Ohlcv :=
  {| o_timestamp := fst e;
     o_open := feed_price (snd e);
     o_high := feed_price (snd e);
     o_low := feed_price (snd e);
     o_close := feed_price (snd e);
     o_volume := feed_volume24h (snd e) |}.

(** [args.limit || 100], for a limit that is absent or a whole number. *)
Definition limit_or_default (limit : option Z) : Z :=
  match limit with
  | Some n => if n =? 0 then 100 else n
  | None => 100
  end.

(** Get price history for charting.  The rows of the token are read through
    the index, newest first, with [.take(limit).collect()]. *)
Definition getPriceHistory (tokenMint : string) (interval : Interval)
  (limit : option Z) (db : Db) : Result History :=
  let limit := limit_or_default limit in
  match
    take_collect
      (filter (fun r => String.eqb (feed_tokenMint r) tokenMint)
              (priceFeeds db))
      limit
  with
  | Throw e => Throw e
  | Ok prices =>
      match prices with
      | [] => Ok {| data := []; interval := interval; token := None |}
      | first :: _ =>
          let intervalMs := getIntervalMs interval in
          let grouped := group intervalMs prices in
          let ohlcv := map to_ohlcv (sort_entries grouped) in
          Ok {| data := ohlcv;
                interval := interval;
                token := Some {| info_mint := feed_tokenMint first;
                                 info_symbol := feed_symbol first;
                                 info_name := feed_name first |} |}
      end
  end.

(** The numbers [calculateAllIndicators] reads from a row of the history. *)
Definition to_point (o : Ohlcv) : Indicators.PricePoint :=
  {| Indicators.close := o_close o;
     Indicators.volume := o_volume o;
     Indicators.high := o_high o;
     Indicators.low := o_low o |}.

End Prices.

(* ================================================================== *)
(** ** actions/analytics: the two actions *)
(* ================================================================== *)

Module Batch.

Import Indicators.

Record Token : Type := {
  token_mint : string;
  token_symbol : string
}.

Inductive Call : Type :=
| Q_getTokensWithHistory (minDataPoints : Z)
| Q_getPriceHistory (tokenMint : string) (limit : Z)
| M_storeTechnicalIndicators (tokenMint : string) (indicators : IndicatorSet)
                             (timestamp : Z).

(** The queries and the mutation the actions call; [getPriceHistory]
    stands for the query, asked for the interval of one hour, followed by
    the [parseFloat] of each field. *)
Record Api : Type := {
  getTokensWithHistory : Z -> Db -> Result (list Token);
  getPriceHistory : string -> Z -> Db -> Result (list PricePoint);
  storeTechnicalIndicators : string -> IndicatorSet -> Z -> Db -> Result Db
}.

(** The price history as [queries/prices] answers it. *)
Definition priceHistory (tokenMint : string) (limit : Z) (db : Db)
  : Result (list PricePoint) :=
  match Prices.getPriceHistory tokenMint Prices.I1h (Some limit) db with
  | Ok history => Ok (map Prices.to_point (Prices.data history))
  | Throw e => Throw e
  end.

(** An interface whose price history is the query of [queries/prices]; the
    other two functions, of [queries/analytics] and [mutations/analytics],
    are not among the sources. *)
Definition with_priceHistory (api : Api) : Api :=
  {| getTokensWithHistory := getTokensWithHistory api;
     getPriceHistory := priceHistory;
     storeTechnicalIndicators := storeTechnicalIndicators api |}.

Record State : Type := {
  st_db : Db;
  st_calls : list Call;
  st_results : list (string * IndicatorSet)
}.

Record Summary : Type := {
  processed : Z;
  tokens : list string
}.

Section Run.

Variable sqrt : number -> number.
Variable api : Api.

(** One iteration of the loop: the [try] block with its [catch], which only
    logs.  [now] is the reading of [Date.now()]; the clock is taken to stand
    still during the run. *)
Definition processToken (now : Z) (st : State) (token : Token) : State :=
  let asked :=
    st_calls st ++ [Q_getPriceHistory (token_mint token) 200] in
  match getPriceHistory api (token_mint token) 200 (st_db st) with
  | Throw _ =>
      {| st_db := st_db st; st_calls := asked; st_results := st_results st |}
  | Ok priceHistory =>
      if len priceHistory <? 20 then
        {| st_db := st_db st; st_calls := asked;
           st_results := st_results st |}
      else
        let indicators := calculateAllIndicators sqrt priceHistory in
        let stored :=
          asked ++ [M_storeTechnicalIndicators (token_mint token)
                                                indicators now] in
        match storeTechnicalIndicators api (token_mint token) indicators now
                                       (st_db st) with
        | Throw _ =>
            {| st_db := st_db st; st_calls := stored;
               st_results := st_results st |}
        | Ok db' =>
            {| st_db := db'; st_calls := stored;
               st_results := st_results st
                             ++ [(token_symbol token, indicators)] |}
        end
  end.

(** Calculate technical indicators for all tracked tokens. *)
Definition calculateTechnicalIndicators (now : Z) (db : Db)
  : Result Summary * State :=
  let asked := [Q_getTokensWithHistory 50] in
  match getTokensWithHistory api 50 db with
  | Throw e =>
      (Throw e, {| st_db := db; st_calls := asked; st_results := [] |})
  | Ok tokens =>
      let st :=
        fold_left (processToken now) tokens
                  {| st_db := db; st_calls := asked; st_results := [] |} in
      (Ok {| processed := len (st_results st);
             tokens := map fst (st_results st) |},
       st)
  end.


End Run.

End Batch.

(* ================================================================== *)
(** ** mutations/trading: completed orders *)
(* ================================================================== *)

Module Completion.

(** The fields of [execution] that a completed order hands on, read with
    [parseFloat]. *)
Record Execution : Type := {
  actualPrice : number;
  actualOut : number
}.

Definition calculatePriceImpact (expected actual : number) : number :=
  let expectedPrice := expected in
  let actualPrice := actual in
  if strict_eq expectedPrice (num 0) then num 0
  else mul (div (sub actualPrice expectedPrice) expectedPrice) (num 100).

(** Update position based on order side. *)
Definition handleCompletedOrder (now : Z) (order : Order)
  (execution : Execution) (db : Db) : Result (Id * PositionOutcome * Db) :=
  match order_side order with
  | buy =>
      updatePosition now
        {| up_userId := order_userId order;
           up_walletId := order_walletId order;
           up_tokenMint := out_mint (order_tokenOut order);
           up_symbol := out_symbol (order_tokenOut order);
           up_name := out_symbol (order_tokenOut order);
           up_amount := actualOut execution;
           up_price := actualPrice execution;
           up_action := act_add |} db
  | sell =>
      updatePosition now
        {| up_userId := order_userId order;
           up_walletId := order_walletId order;
           up_tokenMint := in_mint (order_tokenIn order);
           up_symbol := in_symbol (order_tokenIn order);
           up_name := in_symbol (order_tokenIn order);
           up_amount := in_amount (order_tokenIn order);
           up_price := actualPrice execution;
           up_action := act_remove |} db
  end.

End Completion.

(* ================================================================== *)
(** ** Measures used to state further properties *)
(* ================================================================== *)

Module Measures.

Import Props.

(** 1 for a vote that is cast, 0 for an abstention. *)
Definition cast (v : Vote) : nat :=
  match v with
  | Abstain => 0
  | _ => 1
  end.

(** The calls of a kind in a trace. *)
Definition is_placeTrade (c : Dca.Call) : bool :=
  match c with Dca.M_placeTrade _ => true | _ => false end.

Definition is_store (c : Batch.Call) : bool :=
  match c with Batch.M_storeTechnicalIndicators _ _ _ => true | _ => false end.

Definition is_priceQuery (c : Batch.Call) : bool :=
  match c with Batch.Q_getPriceHistory _ _ => true | _ => false end.

(** How many calls of a kind a trace holds. *)
Definition count {C} (kind : C -> bool) (trace : list C) : Z :=
  len (filter kind trace).

(** How the counters and the trace move between two points of a tick in
    which [n] strategies were gone through. *)
Definition accounted (n : Z) (r : Dca.Results) (w : Dca.World)
  (r' : Dca.Results) (w' : Dca.World) : Prop :=
  Dca.total r' = Dca.total r
  /\ Dca.executed r <= Dca.executed r' /\ Dca.failed r <= Dca.failed r'
  /\ Dca.skipped r <= Dca.skipped r'
  /\ (Dca.executed r' - Dca.executed r) + (Dca.failed r' - Dca.failed r)
     + (Dca.skipped r' - Dca.skipped r) = n
  /\ Dca.executed r' - Dca.executed r
     <= count is_placeTrade (Dca.calls w') - count is_placeTrade (Dca.calls w)
     <= (Dca.executed r' - Dca.executed r) + (Dca.failed r' - Dca.failed r).

(** What the loop of the batch run keeps true of its state after the
    tokens [done]. *)
Definition batch_inv (sqrt : number -> number) (api : Batch.Api)
  (done : list Batch.Token) (st : Batch.State) : Prop :=
  count is_priceQuery (Batch.st_calls st) = len done
  /\ len (Batch.st_results st) <= count is_store (Batch.st_calls st)
     <= len done
  /\ (forall sym ind, In (sym, ind) (Batch.st_results st) ->
       exists t ph d,
         In t done /\ sym = Batch.token_symbol t
         /\ Batch.getPriceHistory api (Batch.token_mint t) 200 d = Ok ph
         /\ 20 <= len ph
         /\ ind = Indicators.calculateAllIndicators sqrt ph).

(** The errors [placeTrade] throws for a trade it turns down, and the one
    the database throws for the order it is handed. *)
Inductive placeTrade_error : Error -> Prop :=
| turned_down_user : placeTrade_error UserNotFoundOrInactive
| turned_down_wallet : placeTrade_error InvalidWallet
| turned_down_daily limit : placeTrade_error (DailyTradeLimitReached limit)
| turned_down_positions limit :
    placeTrade_error (MaximumOpenPositionsReached limit)
| order_refused :
    placeTrade_error (SchemaValidationError "orders" "metadata").

End Measures.

(* ================================================================== *)
(** ** Sample data *)
(* ================================================================== *)

Module Samples.

Import Indicators Props Examples.

(** Twenty-six closes, oldest first. *)
Definition closes26 : list number :=
  map num
      [40; 41; 39; 42; 43; 41; 44; 45; 43; 46;
       47; 45; 48; 49; 47; 50; 51; 49; 52; 53;
       51; 54; 55; 53; 56; 57].

(** A batch interface over one token with twenty flat candles, every call
    of which goes through. *)
Definition batch_api : Batch.Api :=
  {| Batch.getTokensWithHistory :=
       fun _ _ => Ok [{| Batch.token_mint := "SOL";
                         Batch.token_symbol := "SOL" |}];
     Batch.getPriceHistory := fun _ _ _ => Ok (repeat flat_point 20);
     Batch.storeTechnicalIndicators := fun _ _ _ db => Ok db |}.


Definition market_db : Db := Dca.db (market_world [] 0).

(** The buy a daily strategy places. *)
Definition daily_buy : PlaceTradeArgs :=
  Dca.buyArgs dip_strategy (num 50) (num 1).

(** A completed buy of SOL for USDC and a completed sale of as much. *)
Definition bought_order : Order :=
  {| order_id := 100%nat; order_userId := 1%nat; order_walletId := 2%nat;
     order_type := market; order_side := buy; order_status := completed;
     order_tokenIn := {| in_mint := "USDC"; in_symbol := "USDC";
                         in_amount := num 50; in_decimals := 9 |};
     order_tokenOut := {| out_mint := "SOL"; out_symbol := "SOL";
                          out_decimals := 9 |};
     order_tokenOut_amount := num 0; order_expectedPrice := num 0;
     order_slippage := num 1; order_metadata := Some "dca"%string;
     order_createdAt := 1000; order_updatedAt := 1000 |}.

Definition sold_order : Order :=
  {| order_id := 101%nat; order_userId := 1%nat; order_walletId := 2%nat;
     order_type := market; order_side := sell; order_status := completed;
     order_tokenIn := {| in_mint := "SOL"; in_symbol := "SOL";
                         in_amount := dec 1 2; in_decimals := 9 |};
     order_tokenOut := {| out_mint := "USDC"; out_symbol := "USDC";
                          out_decimals := 9 |};
     order_tokenOut_amount := num 0; order_expectedPrice := num 0;
     order_slippage := num 1; order_metadata := Some "manual"%string;
     order_createdAt := 2000; order_updatedAt := 2000 |}.

Definition buy_fill : Completion.Execution :=
  {| Completion.actualPrice := num 100;
     Completion.actualOut := dec 1 2 |}.

Definition sale_fill : Completion.Execution :=
  {| Completion.actualPrice := num 110; Completion.actualOut := num 55 |}.


End Samples.

(* ================================================================== *)
(** * Properties *)
(* ================================================================== *)

Import Indicators Props Examples Measures.

(** ** Arrays and numbers *)

Section Arrays.

Lemma range_nil a b : b <= a -> range a b = [].
Proof.
  intros H. unfold range.
  replace (Z.to_nat (b - a)) with 0%nat by lia. reflexivity.
Qed.

Lemma range_cons a b : a < b -> range a b = a :: range (a + 1) b.
Proof.
  intros H. unfold range.
  replace (Z.to_nat (b - a)) with (S (Z.to_nat (b - (a + 1)))) by lia.
  cbn [seq map]. f_equal; [lia|].
  rewrite <- seq_shift, map_map.
  apply map_ext. intros k. lia.
Qed.

Lemma range_shift a b : range (a + 1) (b + 1) = map Z.succ (range a b).
Proof.
  unfold range. replace (b + 1 - (a + 1)) with (b - a) by lia.
  rewrite map_map. apply map_ext. intros k. lia.
Qed.

Lemma in_range a b i : In i (range a b) -> a <= i < b.
Proof.
  unfold range. rewrite in_map_iff. intros (k & <- & Hk).
  apply in_seq in Hk. lia.
Qed.

Lemma len_cons {A} (x : A) xs : len (x :: xs) = len xs + 1.
Proof. unfold len. cbn [List.length]. lia. Qed.

Lemma len_map {A B} (f : A -> B) xs : len (map f xs) = len xs.
Proof. unfold len. now rewrite length_map. Qed.

Lemma len_nonneg {A} (xs : list A) : 0 <= len xs.
Proof. unfold len. lia. Qed.

Lemma len_app {A} (xs ys : list A) : len (xs ++ ys) = len xs + len ys.
Proof. unfold len. rewrite length_app. lia. Qed.

Lemma len_repeat {A} (x : A) n : len (repeat x n) = Z.of_nat n.
Proof. unfold len. now rewrite repeat_length. Qed.

Lemma idx_cons x xs i : 0 <= i -> idx (x :: xs) (i + 1) = idx xs i.
Proof.
  intros H. unfold idx.
  destruct (Z.ltb_spec (i + 1) 0); [lia|].
  destruct (Z.ltb_spec i 0); [lia|].
  replace (Z.to_nat (i + 1)) with (S (Z.to_nat i)) by lia. reflexivity.
Qed.

Lemma slice_from_map {A B} (f : A -> B) xs k :
  slice_from (map f xs) k = map f (slice_from xs k).
Proof. unfold slice_from. now rewrite len_map, skipn_map. Qed.

Lemma slice_from_last_n {A} (xs : list A) p :
  0 < p -> slice_from xs (- p) = last_n (Z.to_nat p) xs.
Proof.
  intros H. unfold slice_from, last_n, rel_index, len.
  destruct (Z.ltb_spec (- p) 0); [|lia].
  f_equal. lia.
Qed.

Lemma length_last_n {A} n (xs : list A) :
  (n <= List.length xs)%nat -> List.length (last_n n xs) = n.
Proof. intros H. unfold last_n. rewrite length_skipn. lia. Qed.

Lemma skipn_repeat {A} (x : A) k n : skipn k (repeat x n) = repeat x (n - k).
Proof.
  revert n. induction k as [|k IH]; intros n.
  - now rewrite Nat.sub_0_r.
  - destruct n as [|n]; [reflexivity|]. cbn [repeat skipn]. apply IH.
Qed.

Lemma firstn_repeat {A} (x : A) k n :
  (k <= n)%nat -> firstn k (repeat x n) = repeat x k.
Proof.
  revert n. induction k as [|k IH]; intros n H; [reflexivity|].
  destruct n as [|n]; [lia|]. cbn [repeat firstn]. f_equal. apply IH. lia.
Qed.

Lemma in_skipn {A} (x : A) k xs : In x (skipn k xs) -> In x xs.
Proof.
  intros H. rewrite <- (firstn_skipn k xs). apply in_or_app. now right.
Qed.

(** The loop over the indices computes the change from each price to the
    next. *)
Lemma price_changes_changes prices : price_changes prices = changes prices.
Proof.
  unfold price_changes.
  induction prices as [|a tl IH]; [reflexivity|].
  destruct tl as [|b tl']; [reflexivity|].
  cbn [changes] in *.
  rewrite len_cons.
  rewrite range_cons
    by (rewrite len_cons; pose proof (len_nonneg tl'); lia).
  cbn [map]. f_equal.
  rewrite range_shift, map_map, <- IH.
  apply map_ext_in. intros i Hi. apply in_range in Hi.
  replace (Z.succ i) with (i + 1) by lia.
  replace (i + 1 - 1) with (i - 1 + 1) by lia.
  rewrite !idx_cons by lia. reflexivity.
Qed.

Lemma length_changes prices :
  List.length (changes prices) = (List.length prices - 1)%nat.
Proof.
  induction prices as [|a tl IH]; [reflexivity|].
  destruct tl as [|b tl']; [reflexivity|].
  cbn [changes List.length] in *. lia.
Qed.

(** A number less than another is at most the other. *)
Lemma lt_le a b : lt a b = true -> le a b = true.
Proof.
  unfold lt, le, SFltb, SFleb.
  destruct (SFcompare a b) as [[| |]|]; congruence.
Qed.

(** Adding up zeros gives zero. *)
Lemma sum_zeros (xs : list number) :
  Forall (eq (num 0)) xs -> JS.sum xs = num 0.
Proof.
  unfold JS.sum. induction 1 as [|x xs <- _ IH]; [reflexivity|].
  cbn [fold_left]. exact IH.
Qed.

(** Once a sum is NaN it stays NaN. *)
Lemma sum_NaN xs acc :
  xs <> [] -> Forall (eq NaN) xs -> fold_left add xs acc = NaN.
Proof.
  intros Hne Hall. destruct xs as [|x xs]; [contradiction|].
  inversion Hall as [|? ? <- Hrest]; subst. cbn [fold_left].
  replace (add acc NaN) with NaN by now destruct acc.
  clear Hne Hall. induction Hrest as [|y ys <- _ IH]; [reflexivity|].
  exact IH.
Qed.

(** The difference of a number and itself is zero or NaN, and the quotient
    of two such differences is NaN. *)
Lemma sub_same (c : number) : sub c c = S754_zero false \/ sub c c = NaN.
Proof.
  destruct c as [s|s| |s m e].
  - left. now destruct s.
  - right. now destruct s.
  - right. reflexivity.
  - left. unfold sub, SFsub. cbv zeta. now rewrite Z.sub_diag.
Qed.

Lemma flat_quotient_NaN (c a : number) :
  mul (div (sub c c) (sub c c)) a = NaN.
Proof. destruct (sub_same c) as [-> | ->]; reflexivity. Qed.

End Arrays.

(** ** Insufficient data *)

Section InsufficientData.

Variable sqrt : number -> number.

Lemma short_ltb (xs : list number) (n : Z) : len xs < n -> (len xs <? n) = true.
Proof. intros H. apply Z.ltb_lt. exact H. Qed.

Lemma calculateSMA_short prices period :
  len prices < period -> calculateSMA prices period = None.
Proof. intros H. unfold calculateSMA. now rewrite short_ltb. Qed.

Lemma calculateEMA_short prices period :
  len prices < period -> calculateEMA prices period = None.
Proof. intros H. unfold calculateEMA. now rewrite short_ltb. Qed.

Lemma calculateMACD_short prices :
  len prices < 26 -> calculateMACD prices = None.
Proof.
  intros H. unfold calculateMACD.
  rewrite (calculateEMA_short prices 26 H).
  now destruct (calculateEMA prices 12).
Qed.




Lemma calculateBollingerBands_short prices period stdDev :
  len prices < period -> calculateBollingerBands sqrt prices period stdDev = None.
Proof. intros H. unfold calculateBollingerBands. now rewrite short_ltb. Qed.



End InsufficientData.


(** ** RSI *)

Section RSI.

Variable prices : list number.
Hypothesis enough : 15 <= len prices.

Lemma rsi_window_length : List.length (rsi_window prices) = 14%nat.
Proof.
  unfold rsi_window. apply length_last_n.
  rewrite length_changes. unfold len in enough. lia.
Qed.

(** What [calculateRSI] computes: the simple means of the gains and of
    the losses of the window go into the quotient. *)
Lemma calculateRSI_means :
  calculateRSI prices 14
  = Some (if strict_eq (avgLoss prices) (num 0) then num 100
          else sub (num 100)
                   (div (num 100)
                        (add (num 1)
                             (div (avgGain prices) (avgLoss prices))))).
Proof.
  unfold calculateRSI.
  destruct (Z.ltb_spec (len prices) (14 + 1)) as [Hlt|_]; [lia|].
  rewrite price_changes_changes.
  rewrite !slice_from_map, !slice_from_last_n by lia.
  change (Z.to_nat 14) with 14%nat.
  fold (rsi_window prices).
  change (div (JS.sum (map (fun c => if gt c (num 0) then c else num 0)
                           (rsi_window prices))) (num 14))
    with (avgGain prices).
  change (div (JS.sum (map (fun c => if lt c (num 0) then abs c else num 0)
                           (rsi_window prices))) (num 14))
    with (avgLoss prices).
  now destruct (strict_eq (avgLoss prices) (num 0)).
Qed.

Lemma no_loss_avgLoss :
  Forall (fun c => lt c (num 0) = false) (rsi_window prices) ->
  avgLoss prices = num 0.
Proof.
  intros H. unfold avgLoss.
  rewrite sum_zeros; [reflexivity|].
  apply Forall_forall. intros x Hx.
  apply in_map_iff in Hx as (c & <- & Hc).
  rewrite Forall_forall in H. unfold loss. now rewrite (H c Hc).
Qed.



End RSI.




(** Fifteen closes that rise and fall: the RSI lies strictly between 0 and
    100. *)
Example calculateRSI_mixed_window :
  match calculateRSI (map num closes15) 14 with
  | Some r => lt (num 0) r && lt r (num 100) = true
  | None => False
  end.
Proof. vm_compute. reflexivity. Qed.

(** ** Flat windows *)

Section FlatSeries.

Variable c : number.

Lemma max_of_flat m : max_of (repeat c (S m)) = c.
Proof.
  unfold max_of. cbn [repeat fold_left].
  assert (H0 : max2 NegInf c = c) by (destruct c as [s|s| |s m' e]; try destruct s; reflexivity).
  rewrite H0.
  assert (Hs : max2 c c = c).
  { destruct c as [s|s| |s m' e]; try (destruct s; reflexivity);
      try reflexivity.
    unfold max2, lt, SFltb, SFcompare.
    destruct s; rewrite Z.compare_refl, Pos.compare_cont_refl; reflexivity. }
  induction m as [|m IH]; [reflexivity|].
  cbn [repeat fold_left]. now rewrite Hs.
Qed.

Lemma min_of_flat m : min_of (repeat c (S m)) = c.
Proof.
  unfold min_of. cbn [repeat fold_left].
  assert (H0 : min2 PosInf c = c) by (destruct c as [s|s| |s m' e]; try destruct s; reflexivity).
  rewrite H0.
  assert (Hs : min2 c c = c).
  { destruct c as [s|s| |s m' e]; try (destruct s; reflexivity);
      try reflexivity.
    unfold min2, lt, SFltb, SFcompare.
    destruct s; rewrite Z.compare_refl, Pos.compare_cont_refl; reflexivity. }
  induction m as [|m IH]; [reflexivity|].
  cbn [repeat fold_left]. now rewrite Hs.
Qed.

(** On any flat series of at least 14 candles, whatever the price, the two
    oscillators are NaN. *)
Lemma flat_series_NaN (n : nat) :
  (14 <= n)%nat ->
  let xs := repeat c n in
  calculateWilliamsR xs xs xs 14 = Some NaN
  /\ calculateStochastic xs xs xs 14 = Some {| k := NaN; d := NaN |}.
Proof.
  intros Hn xs.
  assert (Hlen : (len xs <? 14) = false)
    by (apply Z.ltb_ge; subst xs; rewrite len_repeat; lia).
  assert (Hwin : slice_from xs (-14) = repeat c 14).
  { subst xs. rewrite (slice_from_last_n _ 14) by lia.
    unfold last_n. rewrite skipn_repeat, repeat_length. f_equal. lia. }
  assert (Hlast : last_of xs = c).
  { unfold last_of. subst xs. rewrite (slice_from_last_n _ 1) by lia.
    unfold last_n. rewrite skipn_repeat, repeat_length.
    replace (n - (n - Z.to_nat 1))%nat with 1%nat by lia. reflexivity. }
  split.
  - unfold calculateWilliamsR. change (Z.opp 14) with (-14).
    rewrite Hlen, Hwin, Hlast.
    rewrite max_of_flat, min_of_flat. now rewrite flat_quotient_NaN.
  - unfold calculateStochastic. change (Z.opp 14) with (-14).
    rewrite Hlen, Hwin, Hlast.
    rewrite max_of_flat, min_of_flat, flat_quotient_NaN.
    f_equal. f_equal.
    assert (Hk : map (fun i =>
                        mul (div (sub (idx xs i)
                                      (min_of (slice xs (i - 14 + 1) (i + 1))))
                                 (sub (max_of (slice xs (i - 14 + 1) (i + 1)))
                                      (min_of (slice xs (i - 14 + 1) (i + 1)))))
                            (num 100))
                     (range (14 - 1) (len xs))
                 = map (fun _ => NaN) (range 13 (len xs))).
    { apply map_ext_in. intros i Hi. apply in_range in Hi.
      subst xs. rewrite len_repeat in Hi.
      assert (Hs : slice (repeat c n) (i - 14 + 1) (i + 1) = repeat c 14).
      { unfold slice, rel_index. rewrite len_repeat.
        destruct (Z.ltb_spec (i - 14 + 1) 0); [lia|].
        destruct (Z.ltb_spec (i + 1) 0); [lia|].
        rewrite skipn_repeat, firstn_repeat by lia. f_equal. lia. }
      rewrite Hs, max_of_flat, min_of_flat.
      unfold idx. destruct (Z.ltb_spec i 0); [lia|].
      rewrite nth_repeat_lt by lia.
      now apply flat_quotient_NaN. }
    rewrite Hk. unfold JS.sum.
    rewrite sum_NaN; [reflexivity| |].
    + subst xs. rewrite len_repeat.
      rewrite range_cons by lia. cbn [map].
      unfold slice_from, rel_index. cbn [Z.ltb Z.compare Z.opp].
      intros E. apply (f_equal (@List.length _)) in E.
      rewrite length_skipn in E. cbn [List.length] in E.
      unfold len in E. cbn [List.length] in E. lia.
    + unfold slice_from. apply Forall_forall. intros x Hx.
      apply in_skipn in Hx. apply in_map_iff in Hx as (i & <- & _).
      reflexivity.
Qed.

End FlatSeries.

(** C9.  On fourteen candles with high = low = close the denominator
    highestHigh - lowestLow is zero and both oscillators come out as NaN:
    nothing is thrown, but no value stands in for the undefined quotient.
    The indicator set computed from twenty such candles carries the same
    NaN. *)
Theorem flat_window_yields_NaN :
  calculateStochastic flat_series flat_series flat_series 14
  = Some {| k := NaN; d := NaN |}
  /\ calculateWilliamsR flat_series flat_series flat_series 14 = Some NaN
  /\ stochastic (calculateAllIndicators Runtime.sqrt (repeat flat_point 20))
     = Some {| k := NaN; d := NaN |}
  /\ williams (calculateAllIndicators Runtime.sqrt (repeat flat_point 20))
     = Some NaN.
Proof. vm_compute. repeat split. Qed.

(** ** Signal synthesis *)

Section SignalSynthesis.

Variables (rsi : option number) (m : option MACD) (bb : option Bollinger).
Variables (sma20 sma50 : option number) (price : number).

Lemma rsiSignals_votes (v : Votes) :
  bullishSignals (rsiSignals rsi v)
    = bullishSignals v + bullish_weight 2 (rsiVote rsi)
  /\ bearishSignals (rsiSignals rsi v)
    = bearishSignals v + bearish_weight 2 (rsiVote rsi).
Proof.
  unfold rsiSignals, rsiVote.
  destruct rsi as [r|]; [|cbn; lia].
  destruct (truthy r); cbn [andb]; [|cbn; lia].
  destruct (lt r (num 30)); [cbn; lia|].
  destruct (gt r (num 70)); cbn; lia.
Qed.

Lemma macdSignals_votes (v : Votes) :
  bullishSignals (macdSignals m v)
    = bullishSignals v + bullish_weight 1 (macdVote m)
  /\ bearishSignals (macdSignals m v)
    = bearishSignals v + bearish_weight 1 (macdVote m).
Proof.
  unfold macdSignals, macdVote.
  destruct m as [x|]; [|cbn; lia].
  destruct (gt (macd x) (signal x) && gt (histogram x) (num 0)); [cbn; lia|].
  destruct (lt (macd x) (signal x) && lt (histogram x) (num 0)); cbn; lia.
Qed.

Lemma maSignals_votes (v : Votes) :
  bullishSignals (maSignals sma20 sma50 price v)
    = bullishSignals v + bullish_weight 1 (maVote sma20 sma50 price)
  /\ bearishSignals (maSignals sma20 sma50 price v)
    = bearishSignals v + bearish_weight 1 (maVote sma20 sma50 price).
Proof.
  unfold maSignals, maVote.
  destruct sma20 as [a|], sma50 as [b|]; cbn [truthy_opt or_default];
    try (rewrite ?andb_false_r; cbn; lia).
  destruct (truthy a), (truthy b); cbn [andb]; try (cbn; lia).
  destruct (gt price a && gt a b); [cbn; lia|].
  destruct (lt price a && lt a b); cbn; lia.
Qed.

Lemma bbSignals_votes (v : Votes) :
  bullishSignals (bbSignals bb price v)
    = bullishSignals v + bullish_weight 1 (bbVote bb price)
  /\ bearishSignals (bbSignals bb price v)
    = bearishSignals v + bearish_weight 1 (bbVote bb price).
Proof.
  unfold bbSignals, bbVote.
  destruct bb as [x|]; [|cbn; lia].
  destruct (lt price (lower x)); [cbn; lia|].
  destruct (gt price (upper x)); cbn; lia.
Qed.

(** The counters of the code are the weighted votes as the code casts
    them. *)
Lemma synthesize_counters :
  let v := bbSignals bb price
             (maSignals sma20 sma50 price
                (macdSignals m (rsiSignals rsi no_votes))) in
  bullishSignals v = bullishVotes rsi m bb sma20 sma50 price
  /\ bearishSignals v = bearishVotes rsi m bb sma20 sma50 price.
Proof.
  cbn zeta. unfold bullishVotes, bearishVotes.
  destruct (bbSignals_votes
              (maSignals sma20 sma50 price
                 (macdSignals m (rsiSignals rsi no_votes)))) as [-> ->].
  destruct (maSignals_votes (macdSignals m (rsiSignals rsi no_votes)))
    as [-> ->].
  destruct (macdSignals_votes (rsiSignals rsi no_votes)) as [-> ->].
  destruct (rsiSignals_votes no_votes) as [-> ->].
  cbn [bullishSignals bearishSignals no_votes]. lia.
Qed.

(** With the votes as the code casts them, the output follows net as the
    specification has it. *)
Lemma synthesize_vote_aggregation :
  let net := bullishVotes rsi m bb sma20 sma50 price
             - bearishVotes rsi m bb sma20 sma50 price in
  let out := synthesize rsi m bb sma20 sma50 price in
  (Z.abs net <= 1 -> overall out = neutral /\ strength out = 0)
  /\ (net > 1 -> overall out = bullish /\ strength out = Z.min 100 (net * 20))
  /\ (net < -1 ->
      overall out = bearish /\ strength out = Z.min 100 (Z.abs net * 20))
  /\ 0 <= strength out <= 100.
Proof.
  intros net out.
  destruct synthesize_counters as [Hb Hs]. cbn zeta in Hb, Hs.
  subst out. unfold synthesize, overallSignal.
  rewrite Hb, Hs. fold net.
  destruct (net >? 1) eqn:H1; [apply Z.gtb_lt in H1|].
  - cbn. repeat split; lia.
  - assert (~ 1 < net) by (rewrite <- Z.gtb_lt; congruence).
    destruct (net <? -1) eqn:H2; [apply Z.ltb_lt in H2|apply Z.ltb_ge in H2];
      cbn; repeat split; lia.
Qed.

(** Away from an RSI of zero the code casts the RSI vote of the
    specification. *)
Lemma rsiVote_specRsiVote :
  (forall r, rsi = Some r -> strict_eq r (num 0) = false) ->
  rsiVote rsi = specRsiVote rsi.
Proof.
  intros H. unfold rsiVote, specRsiVote.
  destruct rsi as [r|]; [|reflexivity].
  specialize (H r eq_refl).
  destruct r as [s|s| |s mr e]; try reflexivity.
  destruct s; discriminate.
Qed.

Lemma synthesize_specSignal :
  (forall r, rsi = Some r -> strict_eq r (num 0) = false) ->
  (overall (synthesize rsi m bb sma20 sma50 price),
   strength (synthesize rsi m bb sma20 sma50 price))
  = specSignal rsi m bb sma20 sma50 price.
Proof.
  intros H.
  destruct synthesize_counters as [Hb Hs]. cbn zeta in Hb, Hs.
  unfold synthesize, overallSignal, specSignal.
  rewrite Hb, Hs. unfold bullishVotes, bearishVotes.
  rewrite (rsiVote_specRsiVote H).
  set (net := _ - _).
  destruct (net >? 1); [reflexivity|].
  now destruct (net <? -1).
Qed.

End SignalSynthesis.

(** C4.  Fifteen closes that fall at every step have an RSI of exactly 0,
    the most oversold reading there is.  By the specification the RSI
    extreme contributes 2 bullish votes, so that net = 2 and the output is
    buy with strength 40; the code tests [if (rsi)] before it looks at the
    reading, 0 is falsy, no vote is cast and the output is neutral with
    strength 0 and no entry.  On every snapshot whose RSI is not zero
    the output of the code is the one of the specification. *)
Theorem rsi_zero_vote_dropped :
  let prices := map num falling15 in
  let reading := calculateRSI prices 14 in
  reading = Some (num 0)
  /\ specRsiVote reading = Bullish
  /\ rsiVote reading = Abstain
  /\ specSignal reading (calculateMACD prices)
       (calculateBollingerBands Runtime.sqrt prices 20 (num 2))
       (calculateSMA prices 20) (calculateSMA prices 50) (last_of prices)
     = (bullish, 40)
  /\ generateTradingSignals Runtime.sqrt prices [] [] []
     = {| overall := neutral; strength := 0; signals := [] |}
  /\ forall rsi m bb sma20 sma50 price,
       (forall r, rsi = Some r -> strict_eq r (num 0) = false) ->
       (overall (synthesize rsi m bb sma20 sma50 price),
        strength (synthesize rsi m bb sma20 sma50 price))
       = specSignal rsi m bb sma20 sma50 price.
Proof.
  cbv zeta.
  split; [vm_compute; reflexivity|].
  split; [vm_compute; reflexivity|].
  split; [vm_compute; reflexivity|].
  split; [vm_compute; reflexivity|].
  split; [vm_compute; reflexivity|].
  intros rsi m bb sma20 sma50 price H.
  now apply synthesize_specSignal.
Qed.

(** ** Position ledger *)

Section Ledger.

Variables (now : Z) (userId walletId : Id) (tokenMint : string).

Let matches (p : Position) : bool :=
  Nat.eqb (pos_userId p) userId && String.eqb (pos_tokenMint p) tokenMint.

Lemma find_position_matches ps e :
  find_position userId tokenMint ps = Some e -> matches e = true.
Proof. intros H. apply find_some in H. apply H. Qed.

Lemma find_position_inserted ps p :
  find_position userId tokenMint ps = None ->
  matches p = true ->
  find_position userId tokenMint (ps ++ [p]) = Some p.
Proof.
  unfold find_position. intros Hnone Hp.
  induction ps as [|x ps IH]; cbn [app find] in *.
  - fold (matches p). now rewrite Hp.
  - destruct (Nat.eqb (pos_userId x) userId
              && String.eqb (pos_tokenMint x) tokenMint); [discriminate|].
    now apply IH.
Qed.

Lemma find_position_patched ps e p' :
  find_position userId tokenMint ps = Some e ->
  matches p' = true ->
  find_position userId tokenMint (patch_position (pos_id e) p' ps) = Some p'.
Proof.
  unfold find_position, patch_position. intros He Hp'.
  induction ps as [|x ps IH]; cbn [map find] in *; [discriminate|].
  destruct (Nat.eqb (pos_userId x) userId
            && String.eqb (pos_tokenMint x) tokenMint) eqn:Hx.
  - injection He as ->. rewrite Nat.eqb_refl.
    fold (matches p'). now rewrite Hp'.
  - destruct (Nat.eqb (pos_id x) (pos_id e)).
    + fold (matches p'). now rewrite Hp'.
    + rewrite Hx. now apply IH.
Qed.

(** The first buy opens the position at the fill's quantity and price. *)
Lemma updatePosition_opens db q p :
  find_position userId tokenMint (positions db) = None ->
  exists id db' pos,
    updatePosition now (fill userId walletId tokenMint (q, p)) db
    = Ok (id, created, db')
    /\ find_position userId tokenMint (positions db') = Some pos
    /\ pos_amount pos = q
    /\ pos_averagePrice pos = p.
Proof.
  intros Hnone. unfold updatePosition.
  cbn [fill up_action up_userId up_tokenMint up_amount up_price fst snd
       up_walletId up_symbol up_name].
  rewrite Hnone.
  eexists _, _, _. split; [reflexivity|].
  cbn [with_positions positions].
  split.
  - apply find_position_inserted; [exact Hnone|].
    unfold matches. cbn. now rewrite Nat.eqb_refl, String.eqb_refl.
  - split; reflexivity.
Qed.

(** A later buy takes one step of the ledger. *)
Lemma updatePosition_adds db e q p :
  find_position userId tokenMint (positions db) = Some e ->
  exists db' pos,
    updatePosition now (fill userId walletId tokenMint (q, p)) db
    = Ok (pos_id e, updated, db')
    /\ find_position userId tokenMint (positions db') = Some pos
    /\ (pos_amount pos, pos_averagePrice pos)
       = buy_step (pos_amount e, pos_averagePrice e) (q, p).
Proof.
  intros He. unfold updatePosition.
  cbn [fill up_action up_userId up_tokenMint up_amount up_price fst snd].
  rewrite He.
  eexists _, _. split; [reflexivity|].
  cbn [with_positions positions].
  split.
  - apply find_position_patched; [exact He|].
    pose proof (find_position_matches _ _ He) as Hm.
    unfold matches in *. cbn. exact Hm.
  - reflexivity.
Qed.

Lemma applyBuys_existing fills :
  forall db e,
    find_position userId tokenMint (positions db) = Some e ->
    exists db' pos,
      applyBuys now userId walletId tokenMint fills db = Ok db'
      /\ find_position userId tokenMint (positions db') = Some pos
      /\ (pos_amount pos, pos_averagePrice pos)
         = fold_left buy_step fills (pos_amount e, pos_averagePrice e).
Proof.
  induction fills as [|[q p] rest IH]; intros db e He.
  - exists db, e. repeat split; [exact He].
  - destruct (updatePosition_adds db e q p He)
      as (db1 & e1 & Hup & He1 & Hstep).
    destruct (IH db1 e1 He1) as (db' & pos & Hrun & Hpos & Hfold).
    exists db', pos. cbn [applyBuys fold_left]. rewrite Hup.
    repeat split; try assumption.
    now rewrite Hfold, Hstep.
Qed.

(** C3, as the code has it.  Buys applied to an account that holds no
    position in the asset leave, after every buy, a position whose
    quantity and average cost are those of the ledger: the first buy sets
    them to its quantity and price, and one more buy (q, p) sets the
    quantity to oldQuantity + q and the average cost to
    (oldQuantity * oldAverageCost + q * p) / (oldQuantity + q), each
    operation rounded to the nearest number. *)
Theorem buys_average_cost_steps (fills : list Fill) (db : Db) :
  fills <> [] ->
  find_position userId tokenMint (positions db) = None ->
  exists db' pos,
    applyBuys now userId walletId tokenMint fills db = Ok db'
    /\ find_position userId tokenMint (positions db') = Some pos
    /\ ledger fills = Some (pos_amount pos, pos_averagePrice pos)
    /\ forall q p,
         exists db'' pos',
           applyBuys now userId walletId tokenMint [(q, p)] db' = Ok db''
           /\ find_position userId tokenMint (positions db'') = Some pos'
           /\ pos_amount pos' = reread (add (pos_amount pos) q)
           /\ pos_averagePrice pos'
              = reread (div (add (mul (pos_amount pos) (pos_averagePrice pos))
                                 (mul q p))
                            (add (pos_amount pos) q)).
Proof.
  intros Hne Hnone.
  destruct fills as [|[q0 p0] rest]; [contradiction|].
  destruct (updatePosition_opens db q0 p0 Hnone)
    as (id & db1 & e1 & Hup & He1 & Ham1 & Hav1).
  destruct (applyBuys_existing rest db1 e1 He1)
    as (db' & pos & Hrun & Hpos & Hfold).
  exists db', pos. cbn [applyBuys]. rewrite Hup.
  split; [exact Hrun|]. split; [exact Hpos|]. split.
  - cbn [ledger]. now rewrite Hfold, Ham1, Hav1.
  - intros q p.
    destruct (updatePosition_adds db' pos q p Hpos)
      as (db'' & pos' & Hup' & Hpos' & Hstep).
    exists db'', pos'. cbn [applyBuys]. rewrite Hup'.
    split; [reflexivity|]. split; [exact Hpos'|].
    unfold buy_step in Hstep. cbn [fst snd] in Hstep.
    now injection Hstep as -> ->.
Qed.

End Ledger.

(** One unit bought at 0.1 and five more at 0.1: the average cost the
    ledger holds is the number below 0.1, not the weighted mean of the
    fills, which is 0.1; the position shows a profit at the price it was
    bought for. *)
Lemma average_cost_rounds :
  exists db pos,
    applyBuys 0 1%nat 2%nat "SOL" tenth_buys empty_db = Ok db
    /\ find_position 1%nat "SOL" (positions db) = Some pos
    /\ (weighted_mean tenth_buys == exact (dec 1 10))%Q
    /\ (exact (pos_averagePrice pos) < weighted_mean tenth_buys)%Q
    /\ pnl_isProfit (pos_pnl pos) = true.
Proof.
  eexists _, _. split; [vm_compute; reflexivity|].
  split; [vm_compute; reflexivity|].
  split; [vm_compute; reflexivity|].
  split; [vm_compute; reflexivity|].
  vm_compute; reflexivity.
Qed.

Lemma buys_average_cost_steps_witness :
  two_buys <> []
  /\ find_position 1%nat "SOL" (positions empty_db) = None
  /\ exists db' pos,
       applyBuys 0 1%nat 2%nat "SOL" two_buys empty_db = Ok db'
       /\ find_position 1%nat "SOL" (positions db') = Some pos
       /\ ledger two_buys = Some (pos_amount pos, pos_averagePrice pos)
       /\ forall q p,
            exists db'' pos',
              applyBuys 0 1%nat 2%nat "SOL" [(q, p)] db' = Ok db''
              /\ find_position 1%nat "SOL" (positions db'') = Some pos'
              /\ pos_amount pos' = reread (add (pos_amount pos) q)
              /\ pos_averagePrice pos'
                 = reread (div (add (mul (pos_amount pos)
                                         (pos_averagePrice pos))
                                    (mul q p))
                               (add (pos_amount pos) q)).
Proof.
  assert (H1 : two_buys <> []) by (unfold two_buys; discriminate).
  assert (H2 : find_position 1%nat "SOL" (positions empty_db) = None)
    by reflexivity.
  split; [exact H1|]. split; [exact H2|].
  exact (buys_average_cost_steps 0 1%nat 2%nat "SOL" two_buys empty_db H1 H2).
Defined.

(** 10 units at 10 and 5 units at 16 make 15 units at an average cost of
    (10 * 10 + 5 * 16) / 15 = 12, without a rounding error. *)
Example two_buys_average :
  ledger two_buys = Some (num 15, num 12)
  /\ (weighted_mean two_buys == 12)%Q.
Proof. split; vm_compute; reflexivity. Qed.

(** ** The scheduler *)

Section Scheduler.

Variable parseInt : string -> number.
Variable startOfDay : Z -> Z.
Variable api : Api.




End Scheduler.



(** ** The due check *)

Section DueCheck.

Variable api : Api.

(** A strategy without a [conditions] block passes the due check at once;
    its limits are not looked at. *)
Lemma checkStrategyConditions_no_conditions now strategy w :
  cfg_conditions (config strategy) = None ->
  checkStrategyConditions api now strategy w = (Ok true, w).
Proof. intros H. unfold checkStrategyConditions. now rewrite H. Qed.

(** With a [conditions] block, a price below [minPrice] ends the check
    after the price query: the 24h change is not asked for. *)
Lemma price_bounds_checked_first now strategy conditions w price m :
  cfg_conditions (config strategy) = Some conditions ->
  minPrice conditions = Some m ->
  getCurrentPrice api (cfg_tokenOut_mint (config strategy)) (db w) = Ok price ->
  lt price m = true ->
  checkStrategyConditions api now strategy w
  = (Ok false,
     {| db := db w;
        calls := calls w
                 ++ [Q_getCurrentPrice (cfg_tokenOut_mint (config strategy))] |}).
Proof.
  intros Hc Hm Hq Hlt. unfold checkStrategyConditions, bind, runQuery.
  rewrite Hc, Hm, Hq, Hlt. reflexivity.
Qed.

(** Without price bounds, a dip-only strategy is skipped when the 24h change
    is above the threshold and otherwise goes on to the limit checks. *)
Lemma dip_checked_before_limits now strategy conditions w change :
  cfg_conditions (config strategy) = Some conditions ->
  minPrice conditions = None -> maxPrice conditions = None ->
  onlyBuyDips conditions = true ->
  getPriceChange24h api (cfg_tokenOut_mint (config strategy)) (db w)
  = Ok change ->
  fst (checkStrategyConditions api now strategy w)
  = Ok (if gt change (or_default (dipThreshold conditions) (num (-5)))
        then false else checkLimits now strategy).
Proof.
  intros Hc Hmin Hmax Hdip Hq.
  unfold checkStrategyConditions, checkDip, bind, runQuery.
  rewrite Hc, Hmin, Hmax, Hdip. cbn. rewrite Hq.
  now destruct (gt change _).
Qed.

End DueCheck.

(** With dipThreshold = -5 a 24h change of -3% skips and one of -8% passes
    the due check. *)
Example dip_scenario :
  fst (checkStrategyConditions DcaStore.api 1000 dip_strategy
         (market_world [dip_strategy] (-3))) = Ok false
  /\ fst (checkStrategyConditions DcaStore.api 1000 dip_strategy
           (market_world [dip_strategy] (-8))) = Ok true.
Proof. split; vm_compute; reflexivity. Qed.

(** C5.  A strategy without a conditions block that has reached its
    maxExecutions: the limit check on its own rejects it, but the due check
    returns before the limits, and the tick, instead of skipping the
    strategy, goes on to place its trade. *)
Theorem limits_skipped_without_conditions :
  checkLimits 1000 exhausted_strategy = false
  /\ checkStrategyConditions DcaStore.api 1000 exhausted_strategy
       (market_world [exhausted_strategy] 0)
     = (Ok true, market_world [exhausted_strategy] 0)
  /\ (let tick :=
        executeScheduledStrategies Runtime.parseInt Runtime.startOfDay
          DcaStore.api 1000 (market_world [exhausted_strategy] 0) in
      fst tick = Ok {| total := 1; executed := 0; failed := 1; skipped := 0 |}
      /\ count is_placeTrade (calls (snd tick)) = 1).
Proof. vm_compute. repeat split. Qed.

(** ** Weekend boost *)

Section WeekendBoost.

Variable startOfDay : Z -> Z.
Variable api : Api.
Variable now : Z.



End WeekendBoost.


(** ** Value averaging *)

Section ValueAveraging.

Variable startOfDay : Z -> Z.
Variable api : Api.
Variable now : Z.

(** [getPosition] takes a position id; handed a user and a token it
    rejects its arguments. *)
Lemma getPosition_rejects strategy d :
  Portfolio.getPosition now (positionArgs strategy) d
  = Throw (ArgumentValidationError "queries/portfolio:getPosition").
Proof. reflexivity. Qed.

(** A cycle ends in its [catch] after the rejected query. *)
Lemma valueAverage_caught strategy w :
  valueAverage startOfDay now strategy tt w
  = (Ok tt,
     {| db := db w;
        calls := calls w ++ [Q_getPosition (positionArgs strategy)] |}).
Proof. reflexivity. Qed.

Lemma averaging_loop_caught strategies w :
  for_each strategies (valueAverage startOfDay now) tt w
  = (Ok tt,
     {| db := db w;
        calls := calls w
                 ++ map (fun s => Q_getPosition (positionArgs s)) strategies |}).
Proof.
  revert w. induction strategies as [|s rest IH]; intros w.
  - cbn. rewrite app_nil_r. now destruct w.
  - cbn [for_each map]. unfold bind. rewrite valueAverage_caught.
    rewrite IH. cbn [db calls]. now rewrite <- app_assoc.
Qed.

End ValueAveraging.

(** C6.  A run of value averaging asks for the strategies and then, for
    each of them, asks [getPosition] for the position by user and token;
    the query takes a position id, rejects the call, and the cycle ends in
    its [catch]: no invest amount is computed and no trade is placed,
    whatever the target.  So it is for a strategy of 50 per execution after
    two executions that holds nothing: its target is 150, the amount to
    invest is 150, and the run places no trade. *)
Theorem value_averaging_never_invests
  (startOfDay : Z -> Z) (api : Api) (now : Z) (w : World) :
  let run := processValueAveraging startOfDay api now w in
  match getValueAveragingStrategies api (db w) with
  | Ok strategies =>
      run = (Ok tt,
             {| db := db w;
                calls := calls w
                         ++ Q_getValueAveragingStrategies
                            :: map (fun s => Q_getPosition (positionArgs s))
                                   strategies |})
  | Throw e =>
      run = (Throw e,
             {| db := db w;
                calls := calls w ++ [Q_getValueAveragingStrategies] |})
  end
  /\ calculateTargetValue averaging_strategy = num 150
  /\ positions (db (market_world [averaging_strategy] 0)) = []
  /\ sub (calculateTargetValue averaging_strategy) (num 0) = num 150
  /\ processValueAveraging Runtime.startOfDay DcaStore.api 1000
       (market_world [averaging_strategy] 0)
     = (Ok tt,
        {| db := db (market_world [averaging_strategy] 0);
           calls := [Q_getValueAveragingStrategies;
                     Q_getPosition (positionArgs averaging_strategy)] |}).
Proof.
  cbv zeta. split; [|repeat split; vm_compute; reflexivity].
  unfold processValueAveraging, bind, runQuery.
  destruct (getValueAveragingStrategies api (db w)) as [strategies|e];
    [|reflexivity].
  rewrite averaging_loop_caught. cbn [db calls].
  now rewrite <- app_assoc.
Qed.

(* ================================================================== *)
(** * Further properties of the indicator engine *)
(* ================================================================== *)

Section IndexLoops.

Lemma range_snoc a b : a <= b -> range a (b + 1) = range a b ++ [b].
Proof.
  intros H. unfold range.
  replace (Z.to_nat (b + 1 - a)) with (Z.to_nat (b - a) + 1)%nat by lia.
  rewrite seq_app, map_app. cbn [seq map]. f_equal. f_equal. lia.
Qed.

Lemma idx_app_l xs ys i : i < len xs -> idx (xs ++ ys) i = idx xs i.
Proof.
  intros H. unfold idx. destruct (Z.ltb_spec i 0); [reflexivity|].
  apply app_nth1. unfold len in H. lia.
Qed.

Lemma idx_app_r xs y : idx (xs ++ [y]) (len xs) = y.
Proof.
  unfold idx, len. destruct (Z.ltb_spec (Z.of_nat (List.length xs)) 0); [lia|].
  rewrite Nat2Z.id, app_nth2, Nat.sub_diag by lia. reflexivity.
Qed.

Lemma last_of_snoc xs y : last_of (xs ++ [y]) = y.
Proof.
  unfold last_of, slice_from, rel_index. cbn [Z.ltb Z.compare].
  rewrite len_app. change (len [y]) with 1.
  replace (Z.to_nat (Z.max (len xs + 1 + -1) 0)) with (List.length xs)
    by (unfold len; lia).
  rewrite skipn_app, skipn_all, Nat.sub_diag. reflexivity.
Qed.

Lemma fold_left_ext_in {A B} (f g : A -> B -> A) (l : list B) a :
  (forall acc x, In x l -> f acc x = g acc x) ->
  fold_left f l a = fold_left g l a.
Proof.
  revert a. induction l as [|x l IH]; intros a H; [reflexivity|].
  cbn [fold_left]. rewrite H by (left; reflexivity).
  apply IH. intros acc y Hy. apply H. now right.
Qed.

End IndexLoops.

Section OnBalanceVolume.

(** X4.  One more candle moves the on-balance volume by its volume: up on
    a close above the previous one, down on a close below it, not at all on
    an equal close.  The volume of the first candle never counts. *)
Theorem calculateOBV_next_candle
  (prices volumes : list number) (previous price volume : number) :
  len volumes = len prices + 1 ->
  calculateOBV (prices ++ [previous; price]) (volumes ++ [volume])
  = (let obv := calculateOBV (prices ++ [previous]) volumes in
     if gt price previous then add obv volume
     else if lt price previous then sub obv volume
     else obv)
  /\ calculateOBV [previous] [volume] = num 0.
Proof.
  intros Hlen. split; [|reflexivity].
  unfold calculateOBV.
  replace (prices ++ [previous; price]) with ((prices ++ [previous]) ++ [price])
    by now rewrite <- app_assoc.
  set (ps := prices ++ [previous]).
  assert (Hps : len ps = len prices + 1)
    by (subst ps; rewrite len_app; reflexivity).
  rewrite (len_app ps [price]). change (len [price]) with 1.
  rewrite range_snoc by (pose proof (len_nonneg prices); lia).
  rewrite fold_left_app. cbn [fold_left].
  rewrite idx_app_r.
  replace (idx (ps ++ [price]) (len ps - 1)) with previous.
  2:{ rewrite idx_app_l by lia. subst ps.
      rewrite Hps. replace (len prices + 1 - 1) with (len prices) by lia.
      now rewrite idx_app_r. }
  replace (idx (volumes ++ [volume]) (len ps)) with volume
    by (rewrite Hps, <- Hlen; now rewrite idx_app_r).
  rewrite (fold_left_ext_in _
             (fun obv i =>
                if gt (idx ps i) (idx ps (i - 1)) then add obv (idx volumes i)
                else if lt (idx ps i) (idx ps (i - 1))
                     then sub obv (idx volumes i)
                     else obv)).
  - reflexivity.
  - intros acc i Hi. apply in_range in Hi.
    now rewrite !(idx_app_l ps), (idx_app_l volumes) by lia.
Qed.

End OnBalanceVolume.

Section CompositeScores.

(** X6.  The trend strength is one of 0, 25, 50, 75 and 100, whatever the
    prices. *)
Theorem calculateTrendStrength_steps (prices : list number) :
  In (calculateTrendStrength prices)
     [num 0; num 25; num 50; num 75; num 100].
Proof.
  unfold calculateTrendStrength.
  destruct (len prices <? 20); [now left|].
  destruct (gt (last_of prices) (or_default (calculateSMA prices 20) (num 0)));
  destruct (gt (last_of prices) (or_default (calculateSMA prices 50) (num 0)));
  destruct (gt (or_default (calculateSMA prices 20) (num 0))
               (or_default (calculateSMA prices 50) (num 0)));
  destruct (gt (div (sub (last_of prices)
                         (idx (slice_from prices (-10)) 0)) (num 10)) (num 0));
  vm_compute; tauto.
Qed.

(** [Math.min(100, x)] is NaN, 100, or an [x] below 100. *)
Lemma min2_100_cases (x : number) :
  x = NaN \/ min2 (num 100) x = num 100
  \/ (min2 (num 100) x = x /\ lt x (num 100) = true).
Proof.
  destruct x as [s|s| |s m e]; [| |now left|]; right.
  - right. now destruct s.
  - destruct s; [right|left]; now vm_compute.
  - change (min2 (num 100) (S754_finite s m e))
      with (if lt (S754_finite s m e) (num 100)
            then S754_finite s m e else num 100).
    destruct (lt (S754_finite s m e) (num 100)); [right|left]; auto.
Qed.

Lemma clamp_0_100 (x : number) :
  max2 (num 0) (min2 (num 100) x) = NaN
  \/ (le (num 0) (max2 (num 0) (min2 (num 100) x)) = true
      /\ le (max2 (num 0) (min2 (num 100) x)) (num 100) = true).
Proof.
  destruct (min2_100_cases x) as [-> | [-> | [-> Hlt]]].
  - now left.
  - right. now vm_compute.
  - destruct x as [s|s| |s m e]; [right; now destruct s| |now left|].
    + destruct s; [right; now vm_compute|discriminate].
    + right.
      change (max2 (num 0) (S754_finite s m e))
        with (if lt (num 0) (S754_finite s m e)
              then S754_finite s m e else num 0).
      destruct (lt (num 0) (S754_finite s m e)) eqn:Hpos.
      * split; now apply lt_le.
      * now vm_compute.
Qed.

(** X7.  The momentum score is NaN or a number in [0, 100]; it is 50 on
    fewer than 10 prices. *)
Theorem calculateMomentumScore_clamped (prices : list number) :
  (calculateMomentumScore prices = NaN
   \/ (le (num 0) (calculateMomentumScore prices) = true
       /\ le (calculateMomentumScore prices) (num 100) = true))
  /\ (len prices < 10 -> calculateMomentumScore prices = num 50).
Proof.
  unfold calculateMomentumScore. split.
  - destruct (len prices <? 10); [|apply clamp_0_100].
    right. now vm_compute.
  - intros H. now rewrite (proj2 (Z.ltb_lt _ _) H).
Qed.

(** X25.  The volatility score is capped: it is NaN or a number that is at
    most 100, whatever the square root; on fewer than 20 prices it is 0. *)
Theorem calculateVolatilityScore_capped
  (sqrt : number -> number) (prices : list number) :
  (calculateVolatilityScore sqrt prices = NaN
   \/ le (calculateVolatilityScore sqrt prices) (num 100) = true)
  /\ (len prices < 20 -> calculateVolatilityScore sqrt prices = num 0).
Proof.
  unfold calculateVolatilityScore. split.
  - destruct (len prices <? 20); [right; now vm_compute|].
    match goal with
    | |- min2 (num 100) ?x = _ \/ _ =>
        destruct (min2_100_cases x) as [-> | [-> | [-> Hlt]]]
    end.
    + now left.
    + right. now vm_compute.
    + right. now apply lt_le.
  - intros H. now rewrite (proj2 (Z.ltb_lt _ _) H).
Qed.

End CompositeScores.

Section Bands.

Variable sqrt : number -> number.

Lemma fold_add_NaN xs : fold_left add xs NaN = NaN.
Proof. induction xs as [|x xs IH]; [reflexivity|exact IH]. Qed.

(** A sum that meets a NaN is NaN. *)
Lemma sum_with_NaN xs : In NaN xs -> JS.sum xs = NaN.
Proof.
  intros H. apply in_split in H as (before & after & ->).
  unfold JS.sum. rewrite fold_left_app. cbn [fold_left].
  replace (add (fold_left add before (num 0)) NaN) with NaN
    by now destruct (fold_left add before (num 0)).
  apply fold_add_NaN.
Qed.

(** X2.  The Bollinger bands are null exactly when the series is shorter
    than the period or the mean of the window is falsy, that is 0 or NaN;
    bands that are returned have the moving average as their middle.  One
    NaN among the prices of the window is enough for null. *)
Theorem calculateBollingerBands_null
  (prices : list number) (period : Z) (stdDev : number) :
  (calculateBollingerBands sqrt prices period stdDev = None
   <-> len prices < period
       \/ exists mean, calculateSMA prices period = Some mean
                       /\ truthy mean = false)
  /\ (forall bands,
        calculateBollingerBands sqrt prices period stdDev = Some bands ->
        calculateSMA prices period = Some (middle bands)
        /\ truthy (middle bands) = true)
  /\ (period <= len prices ->
      In NaN (slice_from prices (- period)) ->
      calculateBollingerBands sqrt prices period stdDev = None).
Proof.
  unfold calculateBollingerBands, calculateSMA.
  destruct (Z.ltb_spec (len prices) period) as [Hshort|Hlong].
  - split; [split; [now left|reflexivity]|].
    split; [discriminate|]. intros H. lia.
  - set (mean := div (JS.sum (slice_from prices (- period))) (num period)).
    destruct (truthy mean) eqn:Hmean; cbn [negb].
    + split; [split; [discriminate|]|split].
      * intros [H|(x & Hx & Hf)]; [lia|].
        injection Hx as <-. congruence.
      * intros bands H. injection H as <-. now split.
      * intros _ Hnan. exfalso. subst mean.
        rewrite (sum_with_NaN _ Hnan) in Hmean. discriminate.
    + split; [split; [|reflexivity]|split].
      * intros _. right. now exists mean.
      * discriminate.
      * reflexivity.
Qed.

End Bands.

Section SignalSummary.

Variables (rsi : option number) (m : option MACD) (bb : option Bollinger).
Variables (sma20 sma50 : option number) (price : number).

Lemma rsiSignals_entries (v : Votes) :
  List.length (entries (rsiSignals rsi v))
  = (List.length (entries v) + cast (rsiVote rsi))%nat.
Proof.
  unfold rsiSignals, rsiVote.
  destruct rsi as [r|]; [|cbn; lia].
  destruct (truthy r); cbn [andb]; [|cbn; lia].
  destruct (lt r (num 30)); [cbn; rewrite length_app; cbn; lia|].
  destruct (gt r (num 70)); cbn; rewrite ?length_app; cbn; lia.
Qed.

Lemma macdSignals_entries (v : Votes) :
  List.length (entries (macdSignals m v))
  = (List.length (entries v) + cast (macdVote m))%nat.
Proof.
  unfold macdSignals, macdVote.
  destruct m as [x|]; [|cbn; lia].
  destruct (gt (macd x) (signal x) && gt (histogram x) (num 0));
    [cbn; rewrite length_app; cbn; lia|].
  destruct (lt (macd x) (signal x) && lt (histogram x) (num 0));
    cbn; rewrite ?length_app; cbn; lia.
Qed.

Lemma maSignals_entries (v : Votes) :
  List.length (entries (maSignals sma20 sma50 price v))
  = (List.length (entries v) + cast (maVote sma20 sma50 price))%nat.
Proof.
  unfold maSignals, maVote.
  destruct sma20 as [a|], sma50 as [b|]; cbn [truthy_opt or_default];
    try (rewrite ?andb_false_r; cbn; lia).
  destruct (truthy a), (truthy b); cbn [andb]; try (cbn; lia).
  destruct (gt price a && gt a b); [cbn; rewrite length_app; cbn; lia|].
  destruct (lt price a && lt a b); cbn; rewrite ?length_app; cbn; lia.
Qed.

Lemma bbSignals_entries (v : Votes) :
  List.length (entries (bbSignals bb price v))
  = (List.length (entries v) + cast (bbVote bb price))%nat.
Proof.
  unfold bbSignals, bbVote.
  destruct bb as [x|]; [|cbn; lia].
  destruct (lt price (lower x)); [cbn; rewrite length_app; cbn; lia|].
  destruct (gt price (upper x)); cbn; rewrite ?length_app; cbn; lia.
Qed.

(** X11.  The signal summary has a strength of 0, 40, 60, 80 or 100; it
    is neutral exactly when the strength is 0; and it lists one entry for
    each indicator that cast a vote. *)
Theorem synthesize_summary :
  let out := synthesize rsi m bb sma20 sma50 price in
  In (strength out) [0; 40; 60; 80; 100]
  /\ (overall out = neutral <-> strength out = 0)
  /\ List.length (signals out)
     = (cast (rsiVote rsi) + cast (macdVote m)
        + cast (maVote sma20 sma50 price) + cast (bbVote bb price))%nat.
Proof.
  cbn zeta. unfold synthesize, overallSignal.
  destruct (synthesize_counters rsi m bb sma20 sma50 price) as [Hb Hs].
  cbn zeta in Hb, Hs.
  rewrite Hb, Hs.
  assert (Hlen : List.length
                   (entries
                      (bbSignals bb price
                         (maSignals sma20 sma50 price
                            (macdSignals m (rsiSignals rsi no_votes)))))
                 = (cast (rsiVote rsi) + cast (macdVote m)
                    + cast (maVote sma20 sma50 price)
                    + cast (bbVote bb price))%nat).
  { rewrite bbSignals_entries, maSignals_entries, macdSignals_entries,
      rsiSignals_entries. cbn [entries no_votes List.length]. lia. }
  unfold bullishVotes, bearishVotes.
  destruct (rsiVote rsi), (macdVote m), (maVote sma20 sma50 price),
    (bbVote bb price);
    cbn [bullish_weight bearish_weight cast] in *; cbn;
    (split; [tauto|]); (split; [split; intros; congruence|exact Hlen]).
Qed.

End SignalSummary.

Section TrailingWindows.

Lemma last_n_app {A} (older recent : list A) :
  last_n (List.length recent) (older ++ recent) = recent.
Proof.
  unfold last_n. rewrite length_app.
  replace (List.length older + List.length recent - List.length recent)%nat
    with (List.length older) by lia.
  rewrite skipn_app, skipn_all, Nat.sub_diag. reflexivity.
Qed.

(** X1.  The simple moving average reads the last [period] prices and no
    others: it is their sum, added up from the oldest on, over the period,
    whatever came before them. *)
Theorem calculateSMA_trailing_window
  (older recent : list number) (period : Z) :
  0 < period -> len recent = period ->
  calculateSMA (older ++ recent) period
  = Some (div (JS.sum recent) (num period))
  /\ calculateSMA (older ++ recent) period = calculateSMA recent period.
Proof.
  intros Hpos Hlen.
  assert (H : forall before,
            calculateSMA (before ++ recent) period
            = Some (div (JS.sum recent) (num period))).
  { intros before. unfold calculateSMA.
    destruct (Z.ltb_spec (len (before ++ recent)) period) as [Hlt|_].
    - rewrite len_app in Hlt. pose proof (len_nonneg before). lia.
    - rewrite slice_from_last_n by exact Hpos.
      replace (Z.to_nat period) with (List.length recent)
        by (unfold len in Hlen; lia).
      now rewrite last_n_app. }
  split; [apply H|].
  rewrite H. symmetry. apply (H []).
Qed.

End TrailingWindows.

Section PivotLevels.

Variable sqrt : number -> number.

(** X13.  The pivot levels are computed from the first row of the price
    data alone, the one that the reversal puts last. *)
Theorem pivots_from_first_row (first : PricePoint) (rest : list PricePoint) :
  pivotPoints (calculateAllIndicators sqrt (first :: rest))
  = calculatePivotPoints (high first) (low first) (close first).
Proof.
  unfold calculateAllIndicators. cbn [pivotPoints map rev].
  now rewrite !last_of_snoc.
Qed.

End PivotLevels.

Section YoungSeries.

Lemma length_flat_map_le {A B} (f : A -> list B) (l : list A) :
  (forall x, List.length (f x) <= 1)%nat ->
  (List.length (flat_map f l) <= List.length l)%nat.
Proof.
  intros Hf. induction l as [|x l IH]; cbn [flat_map List.length]; [lia|].
  rewrite length_app. specialize (Hf x). lia.
Qed.

(** X26.  The signal line needs nine values of the MACD line, the first of
    which exists at 26 prices: on 26 to 33 prices the signal line is 0 and
    the histogram is the MACD line itself. *)
Theorem calculateMACD_young_series (prices : list number) :
  26 <= len prices < 34 ->
  calculateMACD prices = None
  \/ exists line,
       calculateMACD prices
       = Some {| macd := line; signal := num 0;
                 histogram := sub line (num 0) |}.
Proof.
  intros Hlen. unfold calculateMACD.
  destruct (calculateEMA prices 12) as [ema12|]; [|now left].
  destruct (calculateEMA prices 26) as [ema26|]; [|now left].
  destruct (negb (truthy ema12) || negb (truthy ema26)); [now left|].
  right. exists (sub ema12 ema26).
  rewrite (calculateEMA_short _ 9); [reflexivity|].
  unfold len in *.
  match goal with
  | |- context [flat_map ?f ?l] =>
      pose proof (length_flat_map_le f l) as Hle
  end.
  assert (Hrange : List.length (range 26 (Z.of_nat (List.length prices) + 1))
                   = Z.to_nat (Z.of_nat (List.length prices) - 25)).
  { unfold range. rewrite length_map, length_seq. f_equal. lia. }
  rewrite Hrange in Hle.
  assert (Hone : forall i,
            (List.length
               match calculateEMA (slice prices 0 i) 12,
                     calculateEMA (slice prices 0 i) 26 with
               | Some ema12_slice, Some ema26_slice =>
                   if truthy ema12_slice && truthy ema26_slice
                   then [sub ema12_slice ema26_slice] else []
               | _, _ => []
               end <= 1)%nat).
  { intros i.
    destruct (calculateEMA (slice prices 0 i) 12) as [a|]; [|cbn; lia].
    destruct (calculateEMA (slice prices 0 i) 26) as [b|]; [|cbn; lia].
    destruct (truthy a && truthy b); cbn; lia. }
  specialize (Hle Hone). lia.
Qed.

End YoungSeries.

Section RisingMarket.

Variable sqrt : number -> number.

(** X23.  On 15 to 25 prices whose last 14 changes hold no loss the RSI is
    100 and casts the first and heaviest vote, a bearish one: the summary
    opens with the entry for an overbought RSI, it is never bullish, and
    its strength is 0, 40 or 60 as the Bollinger bands vote.  On fewer than
    20 prices no other indicator has a say and the summary is bearish with
    strength 40. *)
Theorem rising_market_signals_sell
  (prices highs lows volumes : list number) :
  15 <= len prices < 26 ->
  Forall (fun c => lt c (num 0) = false) (rsi_window prices) ->
  let out := generateTradingSignals sqrt prices highs lows volumes in
  overall out <> bullish
  /\ In (strength out) [0; 40; 60]
  /\ hd_error (signals out) = Some (entry "RSI" "overbought" "strong")
  /\ (len prices < 20 ->
      out = {| overall := bearish; strength := 40;
               signals := [entry "RSI" "overbought" "strong"] |}).
Proof.
  intros Hlen Hwin. cbv zeta. unfold generateTradingSignals.
  assert (Hrsi : calculateRSI prices 14 = Some (num 100)).
  { rewrite calculateRSI_means by lia.
    now rewrite (no_loss_avgLoss prices Hwin). }
  rewrite Hrsi, (calculateMACD_short prices) by lia.
  rewrite (calculateSMA_short prices 50) by lia.
  unfold synthesize.
  change (rsiSignals (Some (num 100)) no_votes)
    with (push_bearish (entry "RSI" "overbought" "strong") 2 no_votes).
  cbn [macdSignals].
  assert (Hma : forall v, maSignals (calculateSMA prices 20) None
                                    (last_of prices) v = v).
  { intros v. unfold maSignals. now destruct (calculateSMA prices 20). }
  rewrite Hma.
  split; [|split; [|split]].
  - unfold bbSignals.
    destruct (calculateBollingerBands sqrt prices 20 (num 2)) as [bb|];
      [|cbn; discriminate].
    destruct (lt (last_of prices) (lower bb)); [cbn; discriminate|].
    destruct (gt (last_of prices) (upper bb)); cbn; discriminate.
  - unfold bbSignals.
    destruct (calculateBollingerBands sqrt prices 20 (num 2)) as [bb|];
      [|cbn; tauto].
    destruct (lt (last_of prices) (lower bb)); [cbn; tauto|].
    destruct (gt (last_of prices) (upper bb)); cbn; tauto.
  - unfold bbSignals.
    destruct (calculateBollingerBands sqrt prices 20 (num 2)) as [bb|];
      [|reflexivity].
    destruct (lt (last_of prices) (lower bb)); [reflexivity|].
    destruct (gt (last_of prices) (upper bb)); reflexivity.
  - intros Hshort.
    now rewrite (calculateBollingerBands_short sqrt prices 20 (num 2)) by lia.
Qed.

End RisingMarket.

(* ================================================================== *)
(** * Properties of the price history and the batch run *)
(* ================================================================== *)

Section BatchRun.

Import Batch.

Variable sqrt : number -> number.
Variable api : Api.
Variable now : Z.

Lemma count_app {C} (kind : C -> bool) xs ys :
  count kind (xs ++ ys) = count kind xs + count kind ys.
Proof. unfold count. now rewrite filter_app, len_app. Qed.

Lemma processToken_inv done st token :
  batch_inv sqrt api done st ->
  batch_inv sqrt api (done ++ [token]) (processToken sqrt api now st token).
Proof.
  intros (Hq & Hs & Hr). unfold processToken, batch_inv.
  rewrite len_app. change (len [token]) with 1.
  assert (Hold : forall sym ind, In (sym, ind) (st_results st) ->
            exists t ph d,
              In t (done ++ [token]) /\ sym = token_symbol t
              /\ getPriceHistory api (token_mint t) 200 d = Ok ph
              /\ 20 <= len ph
              /\ ind = calculateAllIndicators sqrt ph).
  { intros sym ind Hin. destruct (Hr sym ind Hin) as (t & ph & d & Ht & H).
    exists t, ph, d. split; [apply in_or_app; now left|exact H]. }
  destruct (getPriceHistory api (token_mint token) 200 (st_db st))
    as [priceHistory|e] eqn:Hget; cbn [st_calls st_results].
  2:{ rewrite !count_app. cbn. split; [lia|]. split; [lia|exact Hold]. }
  destruct (Z.ltb_spec (len priceHistory) 20) as [Hshort|Hlong];
    cbn [st_calls st_results].
  { rewrite !count_app. cbn. split; [lia|]. split; [lia|exact Hold]. }
  destruct (storeTechnicalIndicators api (token_mint token) _ now (st_db st))
    as [db'|e]; cbn [st_calls st_results]; rewrite !count_app; cbn.
  - rewrite len_app. change (len [_]) with 1.
    split; [lia|]. split; [lia|].
    intros sym ind Hin. apply in_app_or in Hin as [Hin|[E|[]]];
      [now apply Hold|].
    injection E as <- <-.
    exists token, priceHistory, (st_db st).
    split; [apply in_or_app; right; now left|]. auto.
  - split; [lia|]. split; [lia|exact Hold].
Qed.

Lemma fold_processToken_inv rest : forall done st,
  batch_inv sqrt api done st ->
  batch_inv sqrt api (done ++ rest) (fold_left (processToken sqrt api now) rest st).
Proof.
  induction rest as [|t rest IH]; intros done st H; cbn [fold_left].
  - now rewrite app_nil_r.
  - replace (done ++ t :: rest) with ((done ++ [t]) ++ rest)
      by (rewrite <- app_assoc; reflexivity).
    apply IH. now apply processToken_inv.
Qed.

(** X14.  Once the list of tokens is at hand the batch run does not throw:
    it asks for the price history of every token, one failure not stopping
    the rest; it stores at most one indicator set per token; it reports as
    processed only tokens whose set was stored, and every such set was
    computed from a history of at least 20 rows. *)
Theorem calculateTechnicalIndicators_isolates_failures
  (db : Db) (tokens : list Token) :
  getTokensWithHistory api 50 db = Ok tokens ->
  exists summary st,
    calculateTechnicalIndicators sqrt api now db = (Ok summary, st)
    /\ count is_priceQuery (st_calls st) = len tokens
    /\ processed summary = len (Batch.tokens summary)
    /\ processed summary <= count is_store (st_calls st) <= len tokens
    /\ incl (Batch.tokens summary) (map token_symbol tokens)
    /\ forall sym ind, In (sym, ind) (st_results st) ->
         exists t ph d,
           In t tokens /\ sym = token_symbol t
           /\ getPriceHistory api (token_mint t) 200 d = Ok ph
           /\ 20 <= len ph
           /\ ind = calculateAllIndicators sqrt ph.
Proof.
  intros Htok. unfold calculateTechnicalIndicators. rewrite Htok.
  set (st0 := {| st_db := db; st_calls := [Q_getTokensWithHistory 50];
                 st_results := [] |}).
  assert (H0 : batch_inv sqrt api [] st0).
  { unfold batch_inv, st0. cbn. split; [reflexivity|]. split; [lia|].
    intros ? ? []. }
  pose proof (fold_processToken_inv tokens [] st0 H0) as (Hq & Hs & Hr).
  cbn [app] in Hq, Hs, Hr.
  eexists. eexists. split; [reflexivity|].
  cbn [processed Batch.tokens].
  split; [exact Hq|]. split; [now rewrite len_map|]. split; [exact Hs|].
  split; [|exact Hr].
  intros sym Hin. apply in_map_iff in Hin as ([sym' ind] & <- & Hin).
  destruct (Hr _ _ Hin) as (t & _ & _ & Ht & -> & _).
  cbn [fst]. now apply in_map.
Qed.

Lemma fold_processToken_throws tokens : forall st,
  fold_left (processToken sqrt (with_priceHistory api) now) tokens st
  = {| st_db := st_db st;
       st_calls := st_calls st
                   ++ map (fun t => Q_getPriceHistory (token_mint t) 200)
                          tokens;
       st_results := st_results st |}.
Proof.
  induction tokens as [|t rest IH]; intros st; cbn [fold_left map].
  - rewrite app_nil_r. now destruct st.
  - rewrite IH.
    change (processToken sqrt (with_priceHistory api) now st t)
      with {| st_db := st_db st;
              st_calls := st_calls st
                          ++ [Q_getPriceHistory (token_mint t) 200];
              st_results := st_results st |}.
    cbn [st_db st_calls st_results].
    now rewrite <- app_assoc.
Qed.

(** X12.  The price-history query throws on every call: it chains
    [collect] after [take], which has already answered the rows.  A batch
    run against it asks once for every token, stores no indicator set and
    reports nothing as processed. *)
Theorem getPriceHistory_throws
  (tokenMint : string) (interval : Prices.Interval) (limit : option Z)
  (db : Db) :
  Prices.getPriceHistory tokenMint interval limit db
  = Throw (TypeError "collect is not a function")
  /\ forall tokens,
       getTokensWithHistory api 50 db = Ok tokens ->
       calculateTechnicalIndicators sqrt (with_priceHistory api) now db
       = (Ok {| processed := 0; tokens := [] |},
          {| st_db := db;
             st_calls := Q_getTokensWithHistory 50
                         :: map (fun t => Q_getPriceHistory (token_mint t) 200)
                                tokens;
             st_results := [] |}).
Proof.
  split; [reflexivity|].
  intros tokens Htok. unfold calculateTechnicalIndicators.
  cbn [with_priceHistory getTokensWithHistory]. rewrite Htok.
  now rewrite fold_processToken_throws.
Qed.

End BatchRun.

(* ================================================================== *)
(** * Properties of order placement and completion *)
(* ================================================================== *)

Section Orders.

Import Trading Completion.

Variable now : Z.

(** X27.  [getPosition] asked for a position by its id: an id that is
    not in the book throws "Position not found"; for a position in the book
    the answer carries the position, no trades, and the price of the latest
    feed of its token, or the position's own price when there is no feed;
    asked for the history as well, the query throws, because it chains
    [collect] after [take]. *)
Theorem getPosition_answers (positionId : Id) (db : Db) :
  let plain := [("positionId"%string, V_id positionId)] in
  let history := [("positionId"%string, V_id positionId);
                  ("includeHistory"%string, V_boolean true)] in
  match find (fun p => Nat.eqb (pos_id p) positionId) (positions db) with
  | None =>
      Portfolio.getPosition now plain db
      = Throw (OtherError "Position not found")
      /\ Portfolio.getPosition now history db
         = Throw (OtherError "Position not found")
  | Some position =>
      Portfolio.getPosition now history db
      = Throw (TypeError "collect is not a function")
      /\ exists details,
           Portfolio.getPosition now plain db = Ok details
           /\ Portfolio.pd_position details = position
           /\ Portfolio.pd_trades details = []
           /\ Portfolio.pd_currentPrice details
              = match Portfolio.latest_feed db (pos_tokenMint position) with
                | Some feed => feed_price feed
                | None => pos_currentPrice position
                end
  end.
Proof.
  cbv zeta. unfold Portfolio.getPosition.
  cbn [validate forallb field find fst snd String.eqb Ascii.eqb Bool.eqb
       option_map conforms existsb map app andb orb negb].
  destruct (find (fun p => Nat.eqb (pos_id p) positionId) (positions db))
    as [position|].
  - split; [reflexivity|]. eexists. repeat split.
  - split; reflexivity.
Qed.

(** [placeTrade] throws on every call: for the trade it turns down, or, past
    its own checks, from the insert of an order without [metadata]. *)
Lemma placeTrade_throws todayStart args d :
  exists e, placeTrade now todayStart args d = Throw e /\ placeTrade_error e.
Proof.
  unfold placeTrade.
  destruct (get_user d (arg_userId args)) as [user|];
    [|eexists; split; [reflexivity|constructor]].
  destruct (negb (user_isActive user));
    [eexists; split; [reflexivity|constructor]|].
  destruct (get_wallet d (arg_walletId args)) as [wallet|];
    [|eexists; split; [reflexivity|constructor]].
  destruct (negb (Nat.eqb (wallet_userId wallet) (arg_userId args)));
    [eexists; split; [reflexivity|constructor]|].
  destruct (user_dailyTrades user <=? _);
    [eexists; split; [reflexivity|constructor]|].
  destruct (side_eqb (arg_side args) buy && _);
    eexists; (split; [reflexivity|constructor]).
Qed.

(** X16.  No call of [placeTrade] commits an order.  It throws for an
    unknown or inactive user, a wallet of another user, a reached daily
    limit or a reached limit of open positions; a trade that passes these
    checks is handed to the database as an order without the field
    [metadata], which the schema of [orders] requires, and the insert
    throws.  So it is for the buy of an active user with a wallet and no
    order yet. *)
Theorem placeTrade_never_commits
  (todayStart : Z) (args : PlaceTradeArgs) (db : Db) :
  (exists e, placeTrade now todayStart args db = Throw e /\ placeTrade_error e)
  /\ (forall order, order_metadata order = None ->
        insert_order order db = Throw (SchemaValidationError "orders" "metadata"))
  /\ placeTrade 1000 0 Samples.daily_buy Samples.market_db
     = Throw (SchemaValidationError "orders" "metadata").
Proof.
  split; [apply placeTrade_throws|]. split; [|reflexivity].
  intros order H. unfold insert_order, orders_schema. now rewrite H.
Qed.

Lemma find_position_deleted userId tokenMint id ps :
  find_position userId tokenMint ps = None ->
  find_position userId tokenMint (delete_position id ps) = None.
Proof.
  unfold find_position, delete_position. intros H.
  induction ps as [|x ps IH]; cbn [filter find] in *; [reflexivity|].
  destruct (_ && _) eqn:E in H; [discriminate|].
  destruct (negb _); cbn [find]; [rewrite E|]; now apply IH.
Qed.

Lemma delete_inserted id (p : Position) ps :
  pos_id p = id ->
  delete_position id (ps ++ [p]) = delete_position id ps.
Proof.
  intros <-. unfold delete_position. rewrite filter_app. cbn [filter].
  rewrite Nat.eqb_refl. cbn [negb]. apply app_nil_r.
Qed.

(** X19.  A completed buy of a token the user holds no position in opens
    one with the quantity received; a completed sale of at least that
    quantity then closes it, and the user holds no position in the token
    again.  A completed sale without a position throws. *)
Theorem completed_buy_then_sale_closes
  (later : Z) (bought sold : Order) (fill exit : Execution) (db : Db) :
  order_side bought = buy -> order_side sold = sell ->
  order_userId sold = order_userId bought ->
  in_mint (order_tokenIn sold) = out_mint (order_tokenOut bought) ->
  ge (in_amount (order_tokenIn sold)) (actualOut fill) = true ->
  find_position (order_userId bought) (out_mint (order_tokenOut bought))
                (positions db) = None ->
  handleCompletedOrder now sold exit db = Throw InvalidPositionUpdate
  /\ exists id db1 db2,
       handleCompletedOrder now bought fill db = Ok (id, created, db1)
       /\ handleCompletedOrder later sold exit db1 = Ok (id, closed, db2)
       /\ find_position (order_userId bought)
                        (out_mint (order_tokenOut bought))
                        (positions db2) = None.
Proof.
  intros Hb Hs Hu Hm Hge Hnone.
  unfold handleCompletedOrder. rewrite Hb, Hs.
  unfold updatePosition.
  cbn [up_userId up_tokenMint up_action up_amount up_price up_walletId
       up_symbol up_name].
  rewrite Hu, Hm, Hnone.
  split; [reflexivity|].
  eexists. eexists. eexists. split; [reflexivity|].
  cbn [positions with_positions].
  set (p := {| pos_id := nextId db |}).
  assert (Hp : find_position (order_userId bought)
                 (out_mint (order_tokenOut bought)) (positions db ++ [p])
               = Some p).
  { apply find_position_inserted; [exact Hnone|].
    cbn [pos_userId pos_tokenMint p].
    now rewrite Nat.eqb_refl, String.eqb_refl. }
  rewrite Hp. cbn [pos_amount p]. rewrite Hge.
  split; [reflexivity|].
  cbn [positions with_positions pos_id p].
  rewrite delete_inserted by reflexivity.
  now apply find_position_deleted.
Qed.

End Orders.

(* ================================================================== *)
(** * Properties of a scheduler tick *)
(* ================================================================== *)

Section Tick.

Import Dca.

Variable parseInt : string -> number.
Variable startOfDay : Z -> Z.
Variable api : Api.
Variable now : Z.

Lemma checkDip_places_nothing strategy conditions w :
  count is_placeTrade (calls (snd (checkDip api now strategy conditions w)))
  = count is_placeTrade (calls w).
Proof.
  unfold checkDip.
  destruct (onlyBuyDips conditions); [|reflexivity].
  unfold bind, runQuery. cbn [fst snd].
  destruct (getPriceChange24h api _ (db w)) as [priceChange|e];
    [destruct (gt priceChange _)|]; cbn [snd ret calls];
    rewrite count_app; cbn; lia.
Qed.

Lemma checkStrategyConditions_places_nothing strategy w :
  count is_placeTrade
        (calls (snd (checkStrategyConditions api now strategy w)))
  = count is_placeTrade (calls w).
Proof.
  unfold checkStrategyConditions.
  destruct (cfg_conditions (config strategy)) as [conditions|]; [|reflexivity].
  assert (Hprice :
    count is_placeTrade
      (calls (snd ((currentPrice <-
                runQuery (Q_getCurrentPrice (cfg_tokenOut_mint (config strategy)))
                  (getCurrentPrice api (cfg_tokenOut_mint (config strategy))) ;;
              if match minPrice conditions with
                 | Some m => lt currentPrice m
                 | None => false
                 end
              then ret false
              else if match maxPrice conditions with
                      | Some m => gt currentPrice m
                      | None => false
                      end
                   then ret false
                   else checkDip api now strategy conditions) w)))
    = count is_placeTrade (calls w)).
  { unfold bind, runQuery. cbn [fst snd].
    destruct (getCurrentPrice api _ (db w)) as [currentPrice|e];
      [|cbn [snd calls]; rewrite count_app; cbn; lia].
    destruct (match minPrice conditions with
              | Some m => lt currentPrice m
              | None => false
              end); [cbn [snd ret calls]; rewrite count_app; cbn; lia|].
    destruct (match maxPrice conditions with
              | Some m => gt currentPrice m
              | None => false
              end); [cbn [snd ret calls]; rewrite count_app; cbn; lia|].
    rewrite checkDip_places_nothing. cbn [calls].
    rewrite count_app. cbn. lia. }
  destruct (minPrice conditions), (maxPrice conditions);
    try exact Hprice.
  apply checkDip_places_nothing.
Qed.

Lemma executeStrategy_accounted strategy results w r' w' :
  executeStrategy parseInt startOfDay api now strategy results w = (Ok r', w') ->
  accounted 1 results w r' w'.
Proof.
  unfold executeStrategy, try_catch, bind.
  pose proof (checkStrategyConditions_places_nothing strategy w) as Hc.
  destruct (checkStrategyConditions api now strategy w) as [[b|e] w1].
  - cbn [snd] in Hc. destruct b; cbn [negb].
    + unfold runPlaceTrade, runMutation, unit_mutation, ret.
      destruct (placeTrade _ _ _ (db w1)) as [[orderId d1]|e]; cbn [db calls].
      * destruct (recordExecution api _ _ _ _ d1) as [d2|e]; cbn [db calls].
        -- destruct (updateNextExecution api _ _ d2) as [d3|e]; cbn [db calls].
           ++ intros H. injection H as <- <-. unfold accounted.
              cbn [calls total executed failed skipped count_executed].
              rewrite !count_app. cbn. lia.
           ++ destruct (logError api _ _ _ d2) as [d3|e']; [|discriminate].
              intros H. injection H as <- <-. unfold accounted.
              cbn [calls total executed failed skipped count_failed].
              rewrite !count_app. cbn. lia.
        -- destruct (logError api _ _ _ d1) as [d3|e']; [|discriminate].
           intros H. injection H as <- <-. unfold accounted.
           cbn [calls total executed failed skipped count_failed].
           rewrite !count_app. cbn. lia.
      * destruct (logError api _ _ _ (db w1)) as [d3|e']; [|discriminate].
        intros H. injection H as <- <-. unfold accounted.
        cbn [calls total executed failed skipped count_failed].
        rewrite !count_app. cbn. lia.
    + unfold ret. intros H. injection H as <- <-. unfold accounted.
      cbn [total executed failed skipped count_skipped]. lia.
  - cbn [snd] in Hc. unfold runMutation, unit_mutation, ret.
    destruct (logError api _ _ _ (db w1)) as [d3|e']; [|discriminate].
    intros H. injection H as <- <-. unfold accounted.
    cbn [calls total executed failed skipped count_failed].
    rewrite !count_app. cbn. lia.
Qed.

Lemma executeStrategy_returns strategy results w :
  (forall id e t d, exists d', logError api id e t d = Ok d') ->
  exists r' w',
    executeStrategy parseInt startOfDay api now strategy results w
    = (Ok r', w').
Proof.
  intros Hlog. unfold executeStrategy, try_catch.
  match goal with
  | |- context [match ?body w with _ => _ end] =>
      destruct (body w) as [[r|e] w1]
  end.
  - now exists r, w1.
  - unfold bind, runMutation, unit_mutation, ret.
    destruct (Hlog (strategy_id strategy) e now (db w1)) as [d' ->].
    eexists. eexists. reflexivity.
Qed.

Lemma for_each_accounted strategies : forall results w r' w',
  for_each strategies (executeStrategy parseInt startOfDay api now) results w
  = (Ok r', w') ->
  accounted (len strategies) results w r' w'.
Proof.
  induction strategies as [|s rest IH]; intros results w r' w';
    cbn [for_each].
  - unfold ret. intros H. injection H as <- <-. unfold accounted, len.
    cbn. lia.
  - unfold bind.
    destruct (executeStrategy _ _ _ _ s results w) as [[r1|e] w1] eqn:Hs;
      [|discriminate].
    intros Hrest. apply executeStrategy_accounted in Hs. apply IH in Hrest.
    rewrite len_cons. unfold accounted in *. lia.
Qed.

Lemma for_each_returns strategies :
  (forall id e t d, exists d', logError api id e t d = Ok d') ->
  forall results w,
  exists r' w',
    for_each strategies (executeStrategy parseInt startOfDay api now) results w
    = (Ok r', w').
Proof.
  intros Hlog. induction strategies as [|s rest IH]; intros results w;
    cbn [for_each].
  - now exists results, w.
  - unfold bind.
    destruct (executeStrategy_returns s results w Hlog) as (r1 & w1 & ->).
    apply IH.
Qed.

(** X20.  A tick that returns accounts for every due strategy once: the
    counters executed, failed and skipped add up to total, the number of
    strategies found due.  A trade was placed for every strategy counted as
    executed and for none counted as skipped, and never more than one per
    strategy.  The tick returns whenever the error log accepts its
    entries. *)
Theorem executeScheduledStrategies_accounts
  (w : World) (strategies : list Strategy) :
  getDueStrategies api now (db w) = Ok strategies ->
  (forall r w',
     executeScheduledStrategies parseInt startOfDay api now w = (Ok r, w') ->
     total r = len strategies
     /\ 0 <= executed r /\ 0 <= failed r /\ 0 <= skipped r
     /\ executed r + failed r + skipped r = total r
     /\ executed r
        <= count is_placeTrade (calls w') - count is_placeTrade (calls w)
        <= executed r + failed r)
  /\ ((forall id e t d, exists d', logError api id e t d = Ok d') ->
      exists r w',
        executeScheduledStrategies parseInt startOfDay api now w = (Ok r, w')).
Proof.
  intros Hdue. unfold executeScheduledStrategies, bind, runQuery.
  rewrite Hdue. split.
  - intros r w' Hrun. apply for_each_accounted in Hrun.
    unfold accounted in Hrun.
    cbn [total executed failed skipped calls] in Hrun.
    rewrite count_app in Hrun. cbn in Hrun. lia.
  - intros Hlog. apply for_each_returns. exact Hlog.
Qed.


End Tick.

(* ================================================================== *)
(** * Properties of the schedule *)
(* ================================================================== *)

Section Schedule.

Import Dca.

Variable parseInt : string -> number.

Lemma list_ascii_snoc (s : string) (c : Ascii.ascii) :
  list_ascii_of_string (s ++ String c EmptyString)
  = list_ascii_of_string s ++ [c].
Proof.
  induction s as [|a s IH]; cbn [String.append list_ascii_of_string app];
    [reflexivity|]. now rewrite IH.
Qed.

Lemma slice_from_last {A} (xs : list A) (y : A) :
  slice_from (xs ++ [y]) (-1) = [y].
Proof.
  unfold slice_from, rel_index. cbn [Z.ltb Z.compare].
  rewrite len_app. change (len [y]) with 1.
  replace (Z.to_nat (Z.max (len xs + 1 + -1) 0)) with (List.length xs)
    by (unfold len; lia).
  rewrite skipn_app, skipn_all, Nat.sub_diag. reflexivity.
Qed.

Lemma slice_but_last {A} (xs : list A) (y : A) :
  slice (xs ++ [y]) 0 (-1) = xs.
Proof.
  unfold slice, rel_index. cbn [Z.ltb Z.compare].
  rewrite len_app. change (len [y]) with 1.
  replace (Z.to_nat (Z.max (len xs + 1 + -1) 0 - Z.min 0 (len xs + 1)))
    with (List.length xs) by (unfold len; lia).
  replace (Z.to_nat (Z.min 0 (len xs + 1))) with 0%nat by (unfold len; lia).
  cbn [skipn]. rewrite firstn_app, firstn_all, Nat.sub_diag.
  cbn [firstn]. apply app_nil_r.
Qed.

Lemma unit_of (body : string) (c : Ascii.ascii) :
  string_slice_from (body ++ String c EmptyString) (-1) = String c EmptyString.
Proof.
  unfold string_slice_from. now rewrite list_ascii_snoc, slice_from_last.
Qed.

Lemma value_of (body : string) (c : Ascii.ascii) :
  string_slice (body ++ String c EmptyString) 0 (-1) = body.
Proof.
  unfold string_slice. rewrite list_ascii_snoc, slice_but_last.
  apply string_of_list_ascii_of_string.
Qed.

(** X22.  An interval is read as a number followed by one letter: with
    [n] the number that [parseInt] finds before the letter, the next
    execution is the current time plus [n] times the milliseconds of a
    minute, an hour, a day or a week for the letters m, h, d and w, the
    factors multiplied in from the left and every operation rounded; for
    any other letter it is one hour after the current time, whatever the
    number. *)
Theorem interval_next_execution (body : string) (currentTime : Z) :
  let n := parseInt body in
  let next (unit : string) :=
    calculateNextExecution parseInt
      {| freq_type := interval; freq_value := body ++ unit |} currentTime in
  let after (ms : number) := add (num currentTime) ms in
  next "m"%string = after (mul (mul n (num 60)) (num 1000))
  /\ next "h"%string = after (mul (mul (mul n (num 60)) (num 60)) (num 1000))
  /\ next "d"%string
     = after (mul (mul (mul (mul n (num 24)) (num 60)) (num 60)) (num 1000))
  /\ next "w"%string
     = after (mul (mul (mul (mul (mul n (num 7)) (num 24)) (num 60)) (num 60))
                  (num 1000))
  /\ forall letter,
       let unit := String letter EmptyString in
       (unit <> "m" -> unit <> "h" -> unit <> "d" -> unit <> "w" ->
        next unit = after (num (60 * 60 * 1000)))%string.
Proof.
  cbv zeta.
  unfold calculateNextExecution, parseInterval. cbn [freq_type freq_value].
  repeat split; try (now rewrite unit_of, value_of).
  intros letter Hm Hh Hd Hw. rewrite unit_of, value_of.
  apply String.eqb_neq in Hm, Hh, Hd, Hw.
  now rewrite Hm, Hh, Hd, Hw.
Qed.

End Schedule.

(* ================================================================== *)
(** * What a passed due check guarantees *)
(* ================================================================== *)

Section PassedCheck.

Import Dca.

Variable api : Api.
Variable now : Z.



End PassedCheck.

(* ================================================================== *)
(** * Instances *)
(* ================================================================== *)

Import Samples.

Lemma calculateSMA_trailing_window_witness :
  calculateSMA ([num 1; num 2] ++ [num 3; num 5]) 2
  = Some (div (JS.sum [num 3; num 5]) (num 2))
  /\ calculateSMA ([num 1; num 2] ++ [num 3; num 5]) 2
     = calculateSMA [num 3; num 5] 2.
Proof.
  apply (calculateSMA_trailing_window [num 1; num 2] [num 3; num 5] 2).
  - lia.
  - reflexivity.
Defined.

Lemma calculateOBV_next_candle_witness :
  calculateOBV ([num 1] ++ [num 2; num 3]) ([num 5; num 7] ++ [num 10])
  = (let obv := calculateOBV ([num 1] ++ [num 2]) [num 5; num 7] in
     if gt (num 3) (num 2) then add obv (num 10)
     else if lt (num 3) (num 2) then sub obv (num 10) else obv)
  /\ calculateOBV [num 2] [num 10] = num 0.
Proof.
  apply (calculateOBV_next_candle [num 1] [num 5; num 7]
                                  (num 2) (num 3) (num 10)).
  reflexivity.
Defined.

Lemma calculateMACD_young_series_witness :
  calculateMACD closes26 = None
  \/ exists line,
       calculateMACD closes26
       = Some {| macd := line; signal := num 0;
                 histogram := sub line (num 0) |}.
Proof.
  apply (calculateMACD_young_series closes26).
  split; vm_compute; [discriminate|reflexivity].
Defined.

Lemma rising_market_signals_sell_witness :
  let out := generateTradingSignals Runtime.sqrt (map num rising15) [] [] [] in
  overall out <> bullish
  /\ In (strength out) [0; 40; 60]
  /\ hd_error (signals out) = Some (entry "RSI" "overbought" "strong")
  /\ (len (map num rising15) < 20 ->
      out = {| overall := bearish; strength := 40;
               signals := [entry "RSI" "overbought" "strong"] |}).
Proof.
  apply (rising_market_signals_sell Runtime.sqrt (map num rising15) [] [] []).
  - split; vm_compute; [discriminate|reflexivity].
  - vm_compute. repeat constructor.
Defined.

Lemma calculateTechnicalIndicators_isolates_failures_witness :
  exists summary st,
    Batch.calculateTechnicalIndicators Runtime.sqrt batch_api 1000 empty_db
    = (Ok summary, st)
    /\ count is_priceQuery (Batch.st_calls st) = 1
    /\ Batch.processed summary = len (Batch.tokens summary)
    /\ Batch.processed summary <= count is_store (Batch.st_calls st) <= 1
    /\ incl (Batch.tokens summary) ["SOL"%string]
    /\ forall sym ind, In (sym, ind) (Batch.st_results st) ->
         exists t ph d,
           In t [{| Batch.token_mint := "SOL"; Batch.token_symbol := "SOL" |}]
           /\ sym = Batch.token_symbol t
           /\ Batch.getPriceHistory batch_api (Batch.token_mint t) 200 d = Ok ph
           /\ 20 <= len ph
           /\ ind = calculateAllIndicators Runtime.sqrt ph.
Proof.
  apply (calculateTechnicalIndicators_isolates_failures Runtime.sqrt batch_api
           1000 empty_db
           [{| Batch.token_mint := "SOL"; Batch.token_symbol := "SOL" |}]).
  reflexivity.
Defined.

Lemma completed_buy_then_sale_closes_witness :
  Completion.handleCompletedOrder 1000 sold_order sale_fill market_db
  = Throw InvalidPositionUpdate
  /\ exists id db1 db2,
       Completion.handleCompletedOrder 1000 bought_order buy_fill market_db
       = Ok (id, created, db1)
       /\ Completion.handleCompletedOrder 2000 sold_order sale_fill db1
          = Ok (id, closed, db2)
       /\ find_position (order_userId bought_order)
                        (out_mint (order_tokenOut bought_order))
                        (positions db2) = None.
Proof.
  apply (completed_buy_then_sale_closes 1000 2000 bought_order sold_order
           buy_fill sale_fill market_db);
    try reflexivity.
Defined.

Lemma executeScheduledStrategies_accounts_witness :
  let w := market_world [dip_strategy] (-3) in
  let tick := Dca.executeScheduledStrategies Runtime.parseInt
                Runtime.startOfDay DcaStore.api 1000 in
  (forall r w',
     tick w = (Ok r, w') ->
     Dca.total r = len [dip_strategy]
     /\ 0 <= Dca.executed r /\ 0 <= Dca.failed r /\ 0 <= Dca.skipped r
     /\ Dca.executed r + Dca.failed r + Dca.skipped r = Dca.total r
     /\ Dca.executed r
        <= count is_placeTrade (Dca.calls w')
           - count is_placeTrade (Dca.calls w)
        <= Dca.executed r + Dca.failed r)
  /\ ((forall id e t d, exists d', Dca.logError DcaStore.api id e t d = Ok d') ->
      exists r w', tick w = (Ok r, w')).
Proof.
  apply (executeScheduledStrategies_accounts Runtime.parseInt
           Runtime.startOfDay DcaStore.api 1000
           (market_world [dip_strategy] (-3)) [dip_strategy]).
  reflexivity.
Defined.


(** A daily strategy checked at time 1000 comes up again a day later; an
    interval without a number has no next execution. *)
Example daily_next_execution :
  Dca.calculateNextExecution Runtime.parseInt
    {| freq_type := interval; freq_value := "1d" |} 1000
  = num 86401000
  /\ Dca.calculateNextExecution Runtime.parseInt
       {| freq_type := interval; freq_value := "d" |} 1000
     = NaN.
Proof. split; vm_compute; reflexivity. Qed.

